(** * watson_developer_cloud_service: credential resolution and request pipeline

    A shallow embedding of [watson_developer_cloud/watson_developer_cloud_service.py].
    Python values are a small dynamic universe [pyval]; the class instance is a
    record; methods that mutate [self] return the updated record.  Everything
    that touches the outside (the process environment, cookie jars, the HTTP
    transport, response objects) goes through an explicit [world] threaded by
    a state-and-exception monad. *)

From Stdlib Require Import String Ascii List ZArith Bool Lia DecimalString.
Import ListNotations.
Local Open Scope string_scope.
Local Open Scope Z_scope.

(** ** Python values *)

Set Warnings "-register-all".

Inductive pyval : Type :=
| PNone
| PBool (b : bool)
| PInt (z : Z)
| PStr (s : string)
| PList (l : list pyval)
| PDict (d : list (string * pyval)).

(** A [dict] whose keys are strings (JSON objects, keyword mappings), kept in
    insertion order with unique keys. *)
Definition dict : Type := list (string * pyval).

Inductive exn : Type :=
| WatsonException (arg : pyval)
| WatsonInvalidArgument (arg : pyval)
| KeyError (key : pyval)
| IndexError
| TypeError
| ValueError
| TransportFailure (what : string).

Inductive result (A : Type) : Type :=
| Ok (a : A)
| Raise (e : exn).
Arguments Ok {A} a.
Arguments Raise {A} e.

Module Py.

(** [v is None] *)
Definition is_none (v : pyval) : bool :=
  match v with PNone => true | _ => false end.

(** [isinstance(v, dict)] *)
Definition isinstance_dict (v : pyval) : bool :=
  match v with PDict _ => true | _ => false end.

(** [isinstance(v, bool)] *)
Definition isinstance_bool (v : pyval) : bool :=
  match v with PBool _ => true | _ => false end.

(** [bool(v)], the test made by [if v:] and [not v]. *)
Definition truthy (v : pyval) : bool :=
  match v with
  | PNone => false
  | PBool b => b
  | PInt z => negb (z =? 0)
  | PStr s => negb (s =? EmptyString)%string
  | PList l => match l with [] => false | _ => true end
  | PDict d => match d with [] => false | _ => true end
  end.

(** [v == 'literal']: only a string compares equal to a string literal. *)
Definition eq_str (v : pyval) (lit : string) : bool :=
  match v with PStr s => (s =? lit)%string | _ => false end.

Fixpoint dict_get (k : string) (d : dict) : option pyval :=
  match d with
  | [] => None
  | (k', v) :: d' => if (k' =? k)%string then Some v else dict_get k d'
  end.

Definition dict_mem (k : string) (d : dict) : bool :=
  match dict_get k d with Some _ => true | None => false end.

(** [d[k] = v]: replaces in place when the key exists, appends otherwise. *)
Fixpoint dict_set (k : string) (v : pyval) (d : dict) : dict :=
  match d with
  | [] => [(k, v)]
  | (k', v') :: d' =>
      if (k' =? k)%string then (k', v) :: d' else (k', v') :: dict_set k v d'
  end.

(** [d.update(other)] *)
Definition dict_update (d other : dict) : dict :=
  fold_left (fun acc kv => dict_set (fst kv) (snd kv) acc) other d.

(** [needle in hay] on two strings: substring test. *)
Fixpoint substring_of (needle hay : string) : bool :=
  String.prefix needle hay ||
  match hay with
  | EmptyString => false
  | String _ hay' => substring_of needle hay'
  end.

(** ['literal' in v] *)
Definition contains (k : string) (v : pyval) : result bool :=
  match v with
  | PDict d => Ok (dict_mem k d)
  | PList l => Ok (existsb (fun x => eq_str x k) l)
  | PStr s => Ok (substring_of k s)
  | PNone | PBool _ | PInt _ => Raise TypeError
  end.

(** [v['literal']] *)
Definition getitem (v : pyval) (k : string) : result pyval :=
  match v with
  | PDict d =>
      match dict_get k d with
      | Some x => Ok x
      | None => Raise (KeyError (PStr k))
      end
  | _ => Raise TypeError
  end.

(** [v[0]] *)
Definition getitem0 (v : pyval) : result pyval :=
  match v with
  | PList l => match l with x :: _ => Ok x | [] => Raise IndexError end
  | PStr s =>
      match s with
      | String c _ => Ok (PStr (String c EmptyString))
      | EmptyString => Raise IndexError
      end
  | PDict _ => Raise (KeyError (PInt 0))
  | PNone | PBool _ | PInt _ => Raise TypeError
  end.

(** [v['literal'] = x] *)
Definition setitem (v : pyval) (k : string) (x : pyval) : result pyval :=
  match v with
  | PDict d => Ok (PDict (dict_set k x d))
  | _ => Raise TypeError
  end.

Definition int_of (v : pyval) : option Z :=
  match v with
  | PInt z => Some z
  | PBool b => Some (if b then 1 else 0)
  | _ => None
  end.

(** [a + b] *)
Definition add (a b : pyval) : result pyval :=
  match a, b with
  | PStr s, PStr t => Ok (PStr (s ++ t))
  | PList l, PList m => Ok (PList (l ++ m))
  | _, _ =>
      match int_of a, int_of b with
      | Some x, Some y => Ok (PInt (x + y))
      | _, _ => Raise TypeError
      end
  end.

(** [str(n)] for an integer. *)
Definition str_of_int (n : Z) : string :=
  NilZero.string_of_int (Z.to_int n).

End Py.

(** ** The world outside the client *)

Definition cookie : Type := (string * string)%type.

(** What the HTTP library answers: the status code and what [response.json()]
    gives (the decoded body, or the decoder's exception). *)
Record response : Type := mkResponse {
  status_code : Z;
  content : string;
  json : result pyval
}.

(** The keyword arguments of one [requests.request] call. *)
Record sent_request : Type := mkSent {
  sent_method : pyval;
  sent_url : pyval;
  sent_cookies : option nat;
  sent_auth : option (pyval * pyval);
  sent_headers : pyval;
  sent_params : pyval;
  sent_json : pyval;
  sent_data : pyval;
  sent_kwargs : dict
}.

Inductive event : Type :=
| EvGetenv (name : string)
| EvHttp (r : sent_request).

(** [environ] is the process environment; [jars] holds the [CookieJar]
    objects ever created, addressed by position; [responses] holds the
    response objects handed out by the transport; [log] records, latest
    first, each read of the environment and each HTTP call. *)
Record world : Type := mkWorld {
  environ : list (string * string);
  jars : list (list cookie);
  responses : list response;
  log : list event
}.

Definition M (A : Type) : Type := world -> result A * world.

Definition ret {A} (a : A) : M A := fun w => (Ok a, w).
Definition raise {A} (e : exn) : M A := fun w => (Raise e, w).
Definition bind {A B} (m : M A) (k : A -> M B) : M B :=
  fun w => match m w with
           | (Ok a, w') => k a w'
           | (Raise e, w') => (Raise e, w')
           end.
Definition lift {A} (r : result A) : M A := fun w => (r, w).

Notation "x <- m ;; k" := (bind m (fun x => k))
  (at level 61, m at next level, right associativity).

(** ** The module's functions and the service class *)

(** Instance attributes of [WatsonDeveloperCloudService].  [jar] is [None]
    or a reference to a jar of the world; [vcap_service_credentials] exists
    only once the constructor has looked the bindings up. *)
Record client : Type := mkClient {
  url : pyval;
  jar : option nat;
  api_key : pyval;
  username : pyval;
  password : pyval;
  vcap_service_credentials : option pyval
}.

(** What a [request] call returns: the decoded body or the response object. *)
Inductive payload : Type :=
| Decoded (v : pyval)
| RawResponse (r : nat).

Definition lookup_env (name : string) (env : list (string * string))
  : option string :=
  option_map snd (find (fun kv => (fst kv =? name)%string) env).

(** [os.getenv(name)] *)
Definition os_getenv (name : string) : M (option string) :=
  fun w =>
    (Ok (lookup_env name (environ w)),
     mkWorld (environ w) (jars w) (responses w) (EvGetenv name :: log w)).

(** [CookieJar()]: a new, empty jar; its reference is the next free position. *)
Definition new_CookieJar : M nat :=
  fun w =>
    (Ok (length (jars w)),
     mkWorld (environ w) (jars w ++ [[]]) (responses w) (log w)).

Definition jar_contents (w : world) (j : nat) : option (list cookie) :=
  nth_error (jars w) j.

Fixpoint list_set {A} (n : nat) (x : A) (l : list A) : list A :=
  match l, n with
  | [], _ => []
  | _ :: l', O => x :: l'
  | y :: l', S n' => y :: list_set n' x l'
  end.

Definition _remove_null_values (dictionary : pyval) : pyval :=
  match dictionary with
  | PDict d => PDict (filter (fun kv => negb (Py.is_none (snd kv))) d)
  | _ => dictionary
  end.

Definition _convert_boolean_value (value : pyval) : pyval :=
  match value with
  | PBool b => PInt (if b then 1 else 0)
  | _ => value
  end.

Definition _convert_boolean_values (dictionary : pyval) : pyval :=
  match dictionary with
  | PDict d => PDict (map (fun kv => (fst kv, _convert_boolean_value (snd kv))) d)
  | _ => dictionary
  end.

Definition set_username_and_password (self : client) (username' password' : pyval)
  : M client :=
  let username' :=
    if Py.eq_str username' "YOUR SERVICE USERNAME" then PNone else username' in
  let password' :=
    if Py.eq_str password' "YOUR SERVICE PASSWORD" then PNone else password' in
  j <- new_CookieJar ;;
  ret (mkClient (url self) (Some j) (api_key self) username' password'
         (vcap_service_credentials self)).

Definition set_api_key (self : client) (api_key' : pyval) : M client :=
  let api_key' := if Py.eq_str api_key' "YOUR API KEY" then PNone else api_key' in
  j <- new_CookieJar ;;
  ret (mkClient (url self) (Some j) api_key' (username self) (password self)
         (vcap_service_credentials self)).

Definition set_url (self : client) (url' : pyval) : M client :=
  ret (mkClient url' (jar self) (api_key self) (username self) (password self)
         (vcap_service_credentials self)).

Definition unpack_id (dictionary : pyval) (label_id : string) : result pyval :=
  if Py.isinstance_dict dictionary then
    match Py.contains label_id dictionary with
    | Ok true => Py.getitem dictionary label_id
    | Ok false => Ok dictionary
    | Raise e => Raise e
    end
  else Ok dictionary.

Section Service.

(** The JSON decoder ([json.loads]) and the HTTP library
    ([requests.request]) are collaborators outside this module.  The
    library is shown the cookies of the jar it is given; the cookies an
    answer sets (the second component) stay in the library's own session:
    the jar passed in is copied, never written. *)
Variable json_loads : string -> result pyval.
Variable requests_request :
  sent_request -> option (list cookie) -> result response * list cookie.

Definition load_from_vcap_services (service_name : string) : M pyval :=
  vcap_services <- os_getenv "VCAP_SERVICES" ;;
  match vcap_services with
  | Some doc =>
      services <- lift (json_loads doc) ;;
      found <- lift (Py.contains service_name services) ;;
      if found then
        bindings <- lift (Py.getitem services service_name) ;;
        first <- lift (Py.getitem0 bindings) ;;
        lift (Py.getitem first "credentials")
      else ret PNone
  | None => ret PNone
  end.

Definition missing_credentials_message : string :=
  "You must specific your username and password service credentials " ++
  "(Note: these are different from your Bluemix id)".

(** Lines 70-81 of [__init__]: the attributes start empty, then the
    explicit arguments are taken through one of the two setters. *)
Definition take_explicit_credentials (url' username' password' api_key' : pyval)
  : M client :=
  let self := mkClient url' None PNone PNone PNone None in
  if negb (Py.is_none api_key') then
    if negb (Py.is_none username') || negb (Py.is_none password') then
      raise (WatsonInvalidArgument
               (PStr "Cannot set api_key and username and password together"))
    else set_api_key self api_key'
  else set_username_and_password self username' password'.

(** Lines 83-92 of [__init__]: the service-binding registry. *)
Definition take_service_binding (self : client) (vcap_services_name : string)
    (use_vcap_services : bool) : M client :=
  if use_vcap_services && negb (Py.truthy (username self))
                       && negb (Py.truthy (api_key self)) then
    creds <- load_from_vcap_services vcap_services_name ;;
    let self := mkClient (url self) (jar self) (api_key self) (username self)
                  (password self) (Some creds) in
    if negb (Py.is_none creds) && Py.isinstance_dict creds then
      u <- lift (Py.getitem creds "url") ;;
      has_username <- lift (Py.contains "username" creds) ;;
      usr <- (if has_username then lift (Py.getitem creds "username")
              else ret (username self)) ;;
      has_password <- lift (Py.contains "password" creds) ;;
      pwd <- (if has_password then lift (Py.getitem creds "password")
              else ret (password self)) ;;
      has_apikey <- lift (Py.contains "apikey" creds) ;;
      key <- (if has_apikey then lift (Py.getitem creds "apikey")
              else ret (api_key self)) ;;
      ret (mkClient u (jar self) key usr pwd (Some creds))
    else ret self
  else ret self.

(** Lines 70-92 of [__init__]: everything before the final validation. *)
Definition resolve_credentials (vcap_services_name : string)
    (url' username' password' : pyval) (use_vcap_services : bool)
    (api_key' : pyval) : M client :=
  self <- take_explicit_credentials url' username' password' api_key' ;;
  take_service_binding self vcap_services_name use_vcap_services.

(** Lines 94-96 of [__init__]. *)
Definition final_validation (self : client) : M client :=
  if (Py.is_none (username self) || Py.is_none (password self))
     && Py.is_none (api_key self) then
    raise (WatsonException (PStr missing_credentials_message))
  else ret self.

Definition __init__ (vcap_services_name : string)
    (url' username' password' : pyval) (use_vcap_services : bool)
    (api_key' : pyval) : M client :=
  self <- resolve_credentials vcap_services_name url' username' password'
            use_vcap_services api_key' ;;
  final_validation self.

(** The [try]/[except: pass] block keeps whatever [error_message] held
    when an exception interrupted it. *)
Definition _get_error_message (resp : response) : pyval :=
  let error_message := PStr "Unknown error" in
  match json resp with
  | Raise _ => error_message
  | Ok error_json =>
      match Py.contains "error" error_json with
      | Raise _ => error_message
      | Ok has_error =>
          match (if has_error then Py.getitem error_json "error"
                 else Ok error_message) with
          | Raise _ => error_message
          | Ok error_message =>
              match Py.contains "error_message" error_json with
              | Raise _ => error_message
              | Ok has_error_message =>
                  match (if has_error_message
                         then Py.getitem error_json "error_message"
                         else Ok error_message) with
                  | Raise _ => error_message
                  | Ok error_message => error_message
                  end
              end
          end
      end
  end.

(** [requests.request(...)]: the transport sees the jar's cookies; the jar
    itself stays as it is; the answer becomes a new response object. *)
Definition dispatch (r : sent_request) : M (nat * response) :=
  fun w =>
    let cookies :=
      match sent_cookies r with
      | Some j => jar_contents w j
      | None => None
      end in
    let '(answer, _) := requests_request r cookies in
    match answer with
    | Ok resp =>
        (Ok (length (responses w), resp),
         mkWorld (environ w) (jars w) (responses w ++ [resp])
           (EvHttp r :: log w))
    | Raise e =>
        (Raise e,
         mkWorld (environ w) (jars w) (responses w) (EvHttp r :: log w))
    end.

(** [response.status_code = code] on the response object [r]. *)
Definition set_status_code (r : nat) (code : Z) : M unit :=
  fun w =>
    match nth_error (responses w) r with
    | Some resp =>
        (Ok tt,
         mkWorld (environ w) (jars w)
           (list_set r (mkResponse code (content resp) (json resp)) (responses w))
           (log w))
    | None => (Ok tt, w)
    end.

Definition unauthorized_message : string :=
  "Unauthorized: Access is denied due to invalid credentials".

(** Lines 192-212 of [request]: the keyword arguments of the HTTP call. *)
Definition prepare_request (self : client) (method url' : pyval)
    (accept_json : bool) (headers : option dict) (params json' data : pyval)
    (kwargs : dict) : result sent_request :=
  match Py.add (url self) url' with
  | Raise e => Raise e
  | Ok full_url =>
      let headers :=
        if accept_json then
          let json_headers := [("accept", PStr "application/json")] in
          match headers with
          | Some (h :: hs) => PDict (Py.dict_update json_headers (h :: hs))
          | _ => PDict json_headers
          end
        else match headers with Some h => PDict h | None => PNone end in
      let headers := _remove_null_values headers in
      let params := _remove_null_values params in
      let json' := _remove_null_values json' in
      let data := _remove_null_values data in
      let auth :=
        if Py.truthy (username self) && Py.truthy (password self)
        then Some (username self, password self) else None in
      match (if negb (Py.is_none (api_key self)) then
               let params := if Py.is_none params then PDict [] else params in
               Py.setitem params "apikey" (api_key self)
             else Ok params) with
      | Raise e => Raise e
      | Ok params =>
          Ok (mkSent method full_url (jar self) auth headers params
                json' data kwargs)
      end
  end.

(** Lines 217-236 of [request]: what becomes of the response object [r],
    whose fields read [resp] when the transport returned it. *)
Definition classify_response (accept_json : bool) (r : nat) (resp : response)
  : M payload :=
  if (200 <=? status_code resp) && (status_code resp <=? 299) then
    if accept_json then
      response_json <- lift (json resp) ;;
      has_status <- lift (Py.contains "status" response_json) ;;
      is_error <-
        (if has_status then
           st <- lift (Py.getitem response_json "status") ;;
           ret (Py.eq_str st "ERROR")
         else ret false) ;;
      if is_error then
        _ <- set_status_code r 400 ;;
        let error_message := PStr "Unknown error" in
        has_info <- lift (Py.contains "statusInfo" response_json) ;;
        error_message <-
          (if has_info then lift (Py.getitem response_json "statusInfo")
           else ret error_message) ;;
        _ <- (if Py.eq_str error_message "invalid-api-key"
              then set_status_code r 401 else ret tt) ;;
        text <- lift (Py.add (PStr "Error: ") error_message) ;;
        raise (WatsonException text)
      else ret (Decoded response_json)
    else ret (RawResponse r)
  else
    let error_message :=
      if status_code resp =? 401 then PStr unauthorized_message
      else _get_error_message resp in
    text <- lift (Py.add (PStr "Error: ") error_message) ;;
    text <- lift (Py.add text (PStr ", Code: ")) ;;
    text <- lift (Py.add text (PStr (Py.str_of_int (status_code resp)))) ;;
    raise (WatsonException text).

Definition request (self : client) (method url' : pyval) (accept_json : bool)
    (headers : option dict) (params json' data : pyval) (kwargs : dict)
  : M payload :=
  sent <- lift (prepare_request self method url' accept_json headers params
                  json' data kwargs) ;;
  answer <- dispatch sent ;;
  classify_response accept_json (fst answer) (snd answer).

(** The arguments [_alchemy_html_request] hands to [self.request]. *)
Record request_call : Type := mkCall {
  call_method : pyval;
  call_url : pyval;
  call_params : pyval;
  call_data : pyval;
  call_headers : dict
}.

(** Lines 147-163 of [_alchemy_html_request]: everything before the call
    of [self.request]. *)
Definition alchemy_html_call (method_name url' html text params : pyval)
    (method method_url : pyval) : result request_call :=
  let params := if Py.is_none params then PDict [] else params in
  match Py.setitem params "outputMode" (PStr "json") with
  | Raise e => Raise e
  | Ok params =>
      let headers := [("content-type", PStr "application/x-www-form-urlencoded")] in
      let url_encoded_params := PDict [("html", html); ("text", text)] in
      let params := _convert_boolean_values params in
      let finish params method_url :=
        Ok (mkCall method method_url params url_encoded_params headers) in
      if Py.is_none method_url then
        if Py.truthy url' then
          match Py.setitem params "url" url' with
          | Raise e => Raise e
          | Ok params =>
              match Py.add (PStr "/url/URL") method_name with
              | Raise e => Raise e
              | Ok method_url => finish params method_url
              end
          end
        else if Py.truthy html then
          match Py.add (PStr "/html/HTML") method_name with
          | Raise e => Raise e
          | Ok method_url => finish params method_url
          end
        else if Py.truthy text then
          match Py.add (PStr "/text/Text") method_name with
          | Raise e => Raise e
          | Ok method_url => finish params method_url
          end
        else Raise (WatsonInvalidArgument (PStr "url, html or text must be specified"))
      else finish params method_url
  end.

Definition _alchemy_html_request (self : client)
    (method_name url' html text params : pyval) (method method_url : pyval)
  : M payload :=
  call <- lift (alchemy_html_call method_name url' html text params
                  method method_url) ;;
  request self (call_method call) (call_url call) true
    (Some (call_headers call)) (call_params call) PNone (call_data call) [].

(** An open file as [_alchemy_image_request] uses it: its contents and the
    read position.  [read()] returns what lies after the position and moves
    the position to the end. *)
Record file_obj : Type := mkFile {
  file_data : string;
  file_pos : nat
}.

Definition file_read (f : file_obj) : string * file_obj :=
  (substring (file_pos f) (String.length (file_data f) - file_pos f)
     (file_data f),
   mkFile (file_data f) (Nat.max (file_pos f) (String.length (file_data f)))).

(** Lines 169-186 of [_alchemy_image_request]: everything before the call
    of [self.request], with the file object as the reads leave it.  An open
    file is truthy; [image_file=None] is [None]. *)
Definition alchemy_image_call (method_name : pyval)
    (image_file : option file_obj) (image_url params : pyval)
  : result request_call * option file_obj :=
  let params := if Py.is_none params then PDict [] else params in
  match Py.setitem params "outputMode" (PStr "json") with
  | Raise e => (Raise e, image_file)
  | Ok params =>
      let params := _convert_boolean_values params in
      let headers : dict := [] in
      let image_contents := PNone in
      match image_file with
      | Some f =>
          match Py.setitem params "imagePostMode" (PStr "raw") with
          | Raise e => (Raise e, image_file)
          | Ok params =>
              let '(contents, f') := file_read f in
              let image_contents := PStr contents in
              match Py.add (PStr "/image/Image") method_name with
              | Raise e => (Raise e, Some f')
              | Ok url' =>
                  (Ok (mkCall (PStr "POST") url' params image_contents headers),
                   Some f')
              end
          end
      | None =>
          if Py.truthy image_url then
            match Py.setitem params "imagePostMode" (PStr "not-raw") with
            | Raise e => (Raise e, image_file)
            | Ok params =>
                match Py.setitem params "url" image_url with
                | Raise e => (Raise e, image_file)
                | Ok params =>
                    match Py.add (PStr "/url/URL") method_name with
                    | Raise e => (Raise e, image_file)
                    | Ok url' =>
                        (Ok (mkCall (PStr "POST") url' params image_contents
                               headers),
                         image_file)
                    end
                end
            end
          else
            (Raise (WatsonInvalidArgument
                      (PStr "image_file or image_url must be specified")),
             image_file)
      end
  end.

Definition _alchemy_image_request (self : client) (method_name : pyval)
    (image_file : option file_obj) (image_url params : pyval)
  : option file_obj * M payload :=
  let '(prepared, image_file') :=
    alchemy_image_call method_name image_file image_url params in
  (image_file',
   call <- lift prepared ;;
   request self (call_method call) (call_url call) true
     (Some (call_headers call)) (call_params call) PNone (call_data call) []).

End Service.

(** ** Vocabulary of the specification *)

(** Basic mode as [request] tests it (line 207): both values are truthy. *)
Definition basic_active (self : client) : bool :=
  Py.truthy (username self) && Py.truthy (password self).

(** ApiKey mode as [request] tests it (line 209): the key is not [None]. *)
Definition apikey_active (self : client) : bool :=
  negb (Py.is_none (api_key self)).

(** A complete credential set in the specification's words: username and
    password both non-empty, or a non-empty api key. *)
Definition complete_credentials (self : client) : bool :=
  (Py.truthy (username self) && Py.truthy (password self))
  || Py.truthy (api_key self).

(** A template placeholder stands for "not given". *)
Definition without_placeholder (placeholder : string) (v : pyval) : pyval :=
  if Py.eq_str v placeholder then PNone else v.

(** The constructor took a mapping from the service-binding registry. *)
Definition binding_applied (self : client) : bool :=
  match vcap_service_credentials self with
  | Some (PDict _) => true
  | _ => false
  end.

(** [unpack_id] in the specification's words. *)
Definition unpack_id_spec (dictionary : pyval) (key : string) : pyval :=
  match dictionary with
  | PDict d =>
      match Py.dict_get key d with
      | Some v => v
      | None => dictionary
      end
  | _ => dictionary
  end.

(** The message of a non-2xx response in the specification's words. *)
Definition error_message_spec (resp : response) : pyval :=
  if status_code resp =? 401 then PStr unauthorized_message
  else
    match json resp with
    | Ok (PDict d) =>
        match Py.dict_get "error_message" d, Py.dict_get "error" d with
        | Some m, _ => m
        | None, Some m => m
        | None, None => PStr "Unknown error"
        end
    | _ => PStr "Unknown error"
    end.

(** Message and status of a service error reported inside a 2xx body. *)
Definition status_info_message (body : dict) : pyval :=
  match Py.dict_get "statusInfo" body with
  | Some m => m
  | None => PStr "Unknown error"
  end.

Definition status_info_code (body : dict) : Z :=
  match Py.dict_get "statusInfo" body with
  | Some (PStr s) => if (s =? "invalid-api-key")%string then 401 else 400
  | _ => 400
  end.

(** The router settled on [path], asks for JSON output and sends the form
    body [{"html": html, "text": text}]. *)
Definition routes_to (r : result request_call) (path : string)
    (html text : pyval) : Prop :=
  exists call,
    r = Ok call
    /\ call_url call = PStr path
    /\ Py.getitem (call_params call) "outputMode" = Ok (PStr "json")
    /\ call_data call = PDict [("html", html); ("text", text)].

(** The cookies the transport is shown for a call. *)
Definition cookies_shown (w : world) (sent : sent_request)
  : option (list cookie) :=
  match sent_cookies sent with
  | Some j => jar_contents w j
  | None => None
  end.

Section Lifetime.

Variable json_loads : string -> result pyval.

(** The states a client goes through: built by the constructor, then
    changed by the two credential setters. *)
Inductive lifetime : client -> world -> Prop :=
| life_constructed name u usr pwd use_vcap key w self w' :
    __init__ json_loads name u usr pwd use_vcap key w = (Ok self, w') ->
    lifetime self w'
| life_set_username_and_password self w usr pwd self' w' :
    lifetime self w ->
    set_username_and_password self usr pwd w = (Ok self', w') ->
    lifetime self' w'
| life_set_api_key self w key self' w' :
    lifetime self w ->
    set_api_key self key w = (Ok self', w') ->
    lifetime self' w'.

End Lifetime.

(** ** Sample surroundings for concrete runs *)

(** A process with no environment, no jars, no traffic. *)
Definition empty_world : world := mkWorld [] [] [] [].

(** The same after one jar has been created. *)
Definition one_jar_world : world := mkWorld [] [[]] [] [].

(** A decoder that is never asked anything meaningful. *)
Definition no_decoder : string -> result pyval := fun _ => Raise ValueError.

(** A registry document binding the service ["svc"] to a full credential
    set, the environment carrying it, and the decoder's reading of it. *)
Definition sample_registry : pyval :=
  PDict [("svc",
          PList [PDict [("credentials",
                         PDict [("url", PStr "https://bound.example/api");
                                ("username", PStr "bound-user");
                                ("password", PStr "bound-password")])]])].

Definition keyed_registry : pyval :=
  PDict [("svc",
          PList [PDict [("credentials",
                         PDict [("url", PStr "https://bound.example/api");
                                ("apikey", PStr "bound-key")])]])].

Definition bound_world : world :=
  mkWorld [("VCAP_SERVICES", "registry")] [] [] [].

Definition sample_decoder : string -> result pyval :=
  fun _ => Ok sample_registry.

Definition keyed_decoder : string -> result pyval :=
  fun _ => Ok keyed_registry.

(** A client in ApiKey mode, as the constructor leaves it. *)
Definition keyed_client : client :=
  mkClient (PStr "https://host.example/api") (Some 0%nat) (PStr "k")
    PNone PNone None.

(** A transport that always gives the same answer and sets no cookie. *)
Definition answer_with (resp : response)
  : sent_request -> option (list cookie) -> result response * list cookie :=
  fun _ _ => (Ok resp, []).

Definition invalid_key_answer : response :=
  mkResponse 200 EmptyString
    (Ok (PDict [("status", PStr "ERROR");
                ("statusInfo", PStr "invalid-api-key")])).

(** A 200 answer reporting an error with a number for [statusInfo], and
    two 500 answers whose error text is not a string. *)
Definition numeric_info_answer : response :=
  mkResponse 200 EmptyString
    (Ok (PDict [("status", PStr "ERROR"); ("statusInfo", PInt 5)])).

Definition nested_error_answer : response :=
  mkResponse 500 EmptyString
    (Ok (PDict [("error", PDict [("description", PStr "boom")])])).

Definition null_message_answer : response :=
  mkResponse 500 EmptyString
    (Ok (PDict [("error", PStr "boom"); ("error_message", PNone)])).

Definition not_found_answer : response :=
  mkResponse 404 EmptyString (Ok (PDict [("error_message", PStr "not found")])).

(** The world once [VCAP_SERVICES] has been read. *)
Definition after_getenv (w : world) : world :=
  mkWorld (environ w) (jars w) (responses w) (EvGetenv "VCAP_SERVICES" :: log w).

(** A computation that leaves the environment, the jars and the log alone. *)
Definition keeps_surroundings {A} (m : M A) : Prop :=
  forall w r w',
    m w = (r, w') ->
    environ w' = environ w /\ jars w' = jars w /\ log w' = log w.

(** The world right after the transport answered [resp] to [sent]. *)
Definition after_dispatch (w : world) (sent : sent_request)
    (resp : response) : world :=
  mkWorld (environ w) (jars w) (responses w ++ [resp]) (EvHttp sent :: log w).

(** What [keyed_client] sends for a [GET] of ["/v1/ping"], asking for JSON
    or not. *)
Definition ping_sent : sent_request :=
  mkSent (PStr "GET") (PStr "https://host.example/api/v1/ping") (Some 0%nat)
    None (PDict [("accept", PStr "application/json")])
    (PDict [("apikey", PStr "k")]) PNone PNone [].

Definition ping_sent_raw : sent_request :=
  mkSent (PStr "GET") (PStr "https://host.example/api/v1/ping") (Some 0%nat)
    None PNone (PDict [("apikey", PStr "k")]) PNone PNone [].

(** A registry whose binding for ["svc"] has the given credentials. *)
Definition registry_with (creds : pyval) : pyval :=
  PDict [("svc", PList [PDict [("credentials", creds)]])].

(** A mapping as Python holds it: no key twice. *)
Definition unique_keys (d : dict) : Prop := NoDup (map fst d).

(** A client in Basic mode, as the constructor leaves it. *)
Definition basic_client : client :=
  mkClient (PStr "https://host.example/api") (Some 0%nat) PNone
    (PStr "user") (PStr "secret") None.

(** A transport that cannot reach the service. *)
Definition unreachable
  : sent_request -> option (list cookie) -> result response * list cookie :=
  fun _ c => (Raise (TransportFailure "connection refused"),
              match c with Some l => l | None => [] end).

Definition ok_answer (body : pyval) : response :=
  mkResponse 200 EmptyString (Ok body).

(** ** Python primitives: basic facts *)

Lemma dict_get_set_same (k : string) (v : pyval) (d : dict) :
  Py.dict_get k (Py.dict_set k v d) = Some v.
Proof.
  induction d as [|[k' v'] d IH]; simpl.
  - now rewrite String.eqb_refl.
  - destruct (k' =? k)%string eqn:E; simpl; rewrite E; auto.
Qed.

Lemma dict_get_set_other (k k0 : string) (v : pyval) (d : dict) :
  k <> k0 -> Py.dict_get k (Py.dict_set k0 v d) = Py.dict_get k d.
Proof.
  intros Hne. induction d as [|[k' v'] d IH]; simpl.
  - destruct (k0 =? k)%string eqn:E; auto.
    apply String.eqb_eq in E. congruence.
  - destruct (k' =? k0)%string eqn:E0; simpl.
    + destruct (k' =? k)%string eqn:E; auto.
      apply String.eqb_eq in E0, E. congruence.
    + destruct (k' =? k)%string; auto.
Qed.

Lemma dict_get_convert (k : string) (d : dict) :
  Py.dict_get k (map (fun kv => (fst kv, _convert_boolean_value (snd kv))) d)
  = option_map _convert_boolean_value (Py.dict_get k d).
Proof.
  induction d as [|[k' v'] d IH]; simpl; auto.
  destruct (k' =? k)%string; auto.
Qed.

Lemma append_assoc (s t r : string) : ((s ++ t) ++ r = s ++ (t ++ r))%string.
Proof. induction s; simpl; congruence. Qed.

Lemma nth_error_snoc {A} (l : list A) (x : A) :
  nth_error (l ++ [x]) (length l) = Some x.
Proof. induction l; simpl; auto. Qed.

Lemma list_set_snoc {A} (l : list A) (x y : A) :
  list_set (length l) y (l ++ [x]) = (l ++ [y])%list.
Proof. induction l; simpl; congruence. Qed.

(** ** Identifier unpacking *)

(** C9: [unpack_id] never raises; on a mapping that has the key it returns
    the value stored there, and on anything else (a value that is not a
    mapping, or a mapping without the key) it returns its input unchanged.
    In particular [unpack_id({"id": "abc"}, "id")] and [unpack_id("abc", "id")]
    are both ["abc"]. *)
Theorem unpack_id_correct :
  (forall dictionary label_id,
      unpack_id dictionary label_id = Ok (unpack_id_spec dictionary label_id))
  /\ unpack_id (PDict [("id", PStr "abc")]) "id" = Ok (PStr "abc")
  /\ unpack_id (PStr "abc") "id" = Ok (PStr "abc").
Proof.
  split; [| split; reflexivity].
  intros dictionary label_id.
  destruct dictionary; try reflexivity.
  unfold unpack_id, unpack_id_spec; simpl.
  unfold Py.dict_mem.
  destruct (Py.dict_get label_id d); reflexivity.
Qed.

(** ** Setters *)

(** C10: [set_url] replaces the base URL and nothing else: the jar
    reference, username, password and api key of the client are the same and
    the world (so every jar's cookies) is untouched; whereas
    [set_username_and_password] and [set_api_key] always point the client at
    a jar that did not exist before and is empty, leaving the earlier jars
    as they were. *)
Theorem set_url_keeps_session (self : client) (w : world) :
  (forall u,
      exists self',
        set_url self u w = (Ok self', w)
        /\ url self' = u
        /\ jar self' = jar self
        /\ username self' = username self
        /\ password self' = password self
        /\ api_key self' = api_key self)
  /\ (forall usr pwd,
         exists self' w',
           set_username_and_password self usr pwd w = (Ok self', w')
           /\ jar self' = Some (length (jars w))
           /\ jar_contents w (length (jars w)) = None
           /\ jar_contents w' (length (jars w)) = Some []
           /\ forall j, (j < length (jars w))%nat ->
                        jar_contents w' j = jar_contents w j)
  /\ (forall key,
         exists self' w',
           set_api_key self key w = (Ok self', w')
           /\ jar self' = Some (length (jars w))
           /\ jar_contents w (length (jars w)) = None
           /\ jar_contents w' (length (jars w)) = Some []
           /\ forall j, (j < length (jars w))%nat ->
                        jar_contents w' j = jar_contents w j).
Proof.
  assert (Hfresh : nth_error (jars w) (length (jars w)) = None)
    by (apply nth_error_None; lia).
  split; [| split].
  - intros u. eexists. split; [reflexivity|]. simpl. auto.
  - intros usr pwd. do 2 eexists. split; [reflexivity|].
    unfold jar_contents; simpl.
    repeat split; auto using nth_error_snoc.
    intros j Hj. now apply nth_error_app1.
  - intros key. do 2 eexists. split; [reflexivity|].
    unfold jar_contents; simpl.
    repeat split; auto using nth_error_snoc.
    intros j Hj. now apply nth_error_app1.
Qed.

(** ** Construction *)

Ltac run_monad :=
  unfold bind, ret, raise, lift; cbn.

Section Construction.

Variable json_loads : string -> result pyval.

Lemma load_from_vcap_services_unset (name : string) (w : world) :
  lookup_env "VCAP_SERVICES" (environ w) = None ->
  fst (load_from_vcap_services json_loads name w) = Ok PNone.
Proof.
  intros Henv. unfold load_from_vcap_services, os_getenv. run_monad.
  now rewrite Henv.
Qed.

(** C5: an [api_key] argument that is not [None] (the placeholder
    ["YOUR API KEY"] included) given together with a [username] or a
    [password] that is not [None] makes the constructor raise
    [WatsonInvalidArgument] at once: the world is left exactly as it was,
    so the environment has not been read and nothing has been sent. *)
Theorem api_key_excludes_basic (name : string) (u usr pwd : pyval)
    (use_vcap : bool) (key : pyval) (w : world) :
  key <> PNone ->
  usr <> PNone \/ pwd <> PNone ->
  __init__ json_loads name u usr pwd use_vcap key w
  = (Raise (WatsonInvalidArgument
              (PStr "Cannot set api_key and username and password together")),
     w).
Proof.
  intros Hkey Hbasic.
  unfold __init__, resolve_credentials, take_explicit_credentials, bind.
  destruct key; try congruence;
    destruct usr, pwd; try reflexivity;
    destruct Hbasic as [H | H]; exfalso; apply H; reflexivity.
Qed.

(** C6: with [use_vcap_services] true, no explicit username, password or
    api key, and a registry whose entry for the service name starts with an
    element whose ["credentials"] mapping holds a ["url"] and an ["apikey"]
    that is set, the constructor succeeds; the client's api key is the
    registry's, its base URL is the registry's, and ApiKey mode is active. *)
Theorem binding_api_key_adopted (name : string) (u : pyval) (w : world)
    (doc : string) (services entry creds : dict) (rest : list pyval)
    (key burl : pyval) :
  lookup_env "VCAP_SERVICES" (environ w) = Some doc ->
  json_loads doc = Ok (PDict services) ->
  Py.dict_get name services = Some (PList (PDict entry :: rest)) ->
  Py.dict_get "credentials" entry = Some (PDict creds) ->
  Py.dict_get "url" creds = Some burl ->
  Py.dict_get "apikey" creds = Some key ->
  key <> PNone ->
  exists self w',
    __init__ json_loads name u PNone PNone true PNone w = (Ok self, w')
    /\ api_key self = key
    /\ url self = burl
    /\ apikey_active self = true.
Proof.
  intros Henv Hdoc Hsvc Hcreds Hurl Hkey Hset.
  unfold __init__, resolve_credentials, take_explicit_credentials,
    take_service_binding, load_from_vcap_services, os_getenv,
    set_username_and_password, new_CookieJar.
  run_monad. rewrite Henv, Hdoc. cbn.
  unfold Py.dict_mem. rewrite Hsvc. cbn. rewrite Hcreds. cbn.
  rewrite Hurl, Hkey.
  assert (Hnn : Py.is_none key = false) by (destruct key; simpl; congruence).
  unfold Py.dict_mem. rewrite Hkey.
  destruct (Py.dict_get "username" creds) as [usr|];
    destruct (Py.dict_get "password" creds) as [pwd|]; cbn;
    unfold final_validation, apikey_active; cbn;
    rewrite !Hnn, ?andb_false_r;
    do 2 eexists; (split; [reflexivity|]); cbn; rewrite Hnn; auto.
Qed.

Local Arguments load_from_vcap_services : simpl never.

Lemma init_inv (name : string) (u usr pwd : pyval) (use_vcap : bool)
    (key : pyval) (w : world) (self : client) (w' : world) :
  __init__ json_loads name u usr pwd use_vcap key w = (Ok self, w') ->
  resolve_credentials json_loads name u usr pwd use_vcap key w = (Ok self, w')
  /\ ((Py.is_none (username self) || Py.is_none (password self))
      && Py.is_none (api_key self) = false).
Proof.
  unfold __init__, bind.
  destruct (resolve_credentials json_loads name u usr pwd use_vcap key w)
    as [[self0|e] w0]; [|discriminate].
  unfold final_validation.
  destruct ((Py.is_none (username self0) || Py.is_none (password self0))
            && Py.is_none (api_key self0)) eqn:E; cbn; [discriminate|].
  intros H; inversion H; subst. auto.
Qed.

(** The explicit step either refuses the arguments or stores them, with
    placeholders removed, next to a fresh jar; it never reads the
    environment. *)
Lemma take_explicit_credentials_ok (u usr pwd key : pyval) (w : world)
    (self : client) (w' : world) :
  take_explicit_credentials u usr pwd key w = (Ok self, w') ->
  url self = u
  /\ vcap_service_credentials self = None
  /\ log w' = log w
  /\ (if Py.is_none key
      then api_key self = PNone
           /\ username self = without_placeholder "YOUR SERVICE USERNAME" usr
           /\ password self = without_placeholder "YOUR SERVICE PASSWORD" pwd
      else api_key self = without_placeholder "YOUR API KEY" key
           /\ username self = PNone /\ password self = PNone).
Proof.
  unfold take_explicit_credentials, without_placeholder.
  destruct (Py.is_none key); cbn.
  - intros H; inversion H; subst; cbn. repeat split.
  - destruct (negb (Py.is_none usr) || negb (Py.is_none pwd)); cbn;
      [discriminate|].
    intros H; inversion H; subst; cbn. repeat split.
Qed.

(** The binding step either takes a mapping from the registry or leaves
    every credential and the base URL as they were. *)
Lemma take_service_binding_ok (self : client) (name : string) (use_vcap : bool)
    (w : world) (self' : client) (w' : world) :
  take_service_binding json_loads self name use_vcap w = (Ok self', w') ->
  vcap_service_credentials self = None ->
  binding_applied self' = true
  \/ (url self' = url self /\ api_key self' = api_key self
      /\ username self' = username self /\ password self' = password self
      /\ jar self' = jar self).
Proof.
  unfold take_service_binding, binding_applied.
  destruct (use_vcap && negb (Py.truthy (username self))
            && negb (Py.truthy (api_key self))); cbn.
  - unfold bind at 1.
    destruct (load_from_vcap_services json_loads name w) as [[creds|e] w1];
      [|discriminate].
    destruct creds; cbn;
      try (intros H _; inversion H; subst; cbn; right; now auto).
    unfold bind, lift, ret; cbn.
    repeat (match goal with
            | |- context [match Py.dict_get ?k d with _ => _ end] =>
                destruct (Py.dict_get k d)
            | |- context [if Py.dict_mem ?k d then _ else _] =>
                destruct (Py.dict_mem k d)
            end; cbn);
      try discriminate;
      intros H _; inversion H; subst; cbn; now left.
  - intros H Hnone; inversion H; subst. right; auto.
Qed.

(** What the explicit arguments resolve to when no binding is taken. *)
Lemma resolve_without_binding (name : string) (u usr pwd : pyval)
    (use_vcap : bool) (key : pyval) (w : world) (self : client) (w' : world) :
  resolve_credentials json_loads name u usr pwd use_vcap key w = (Ok self, w') ->
  binding_applied self = false ->
  url self = u
  /\ (if Py.is_none key
      then api_key self = PNone
           /\ username self = without_placeholder "YOUR SERVICE USERNAME" usr
           /\ password self = without_placeholder "YOUR SERVICE PASSWORD" pwd
      else api_key self = without_placeholder "YOUR API KEY" key
           /\ username self = PNone /\ password self = PNone).
Proof.
  unfold resolve_credentials, bind.
  destruct (take_explicit_credentials u usr pwd key w) as [[c|e] w1] eqn:E;
    [|discriminate].
  intros Hb Hnb.
  apply take_explicit_credentials_ok in E.
  destruct E as (Hu & Hv & _ & Hfields).
  apply take_service_binding_ok in Hb; auto.
  destruct Hb as [Hb | (Hu' & Hk' & Hn' & Hp' & _)]; [congruence|].
  rewrite Hu', Hk', Hn', Hp'. auto.
Qed.

Lemma take_explicit_credentials_log (u usr pwd key : pyval) (w : world)
    (r : result client) (w' : world) :
  take_explicit_credentials u usr pwd key w = (r, w') -> log w' = log w.
Proof.
  unfold take_explicit_credentials.
  destruct (negb (Py.is_none key)); cbn;
    [destruct (negb (Py.is_none usr) || negb (Py.is_none pwd)); cbn|];
    intros H; inversion H; subst; reflexivity.
Qed.

Lemma final_validation_world (self : client) (w : world)
    (r : result client) (w' : world) :
  final_validation self w = (r, w') -> w' = w.
Proof.
  unfold final_validation.
  destruct ((Py.is_none (username self) || Py.is_none (password self))
            && Py.is_none (api_key self));
    unfold raise, ret; intros H; inversion H; reflexivity.
Qed.

(** C1, as the code has it: when the resolved state has no username or no
    password ([None]; an empty string counts as given) and no api key
    ([None]), the constructor raises [WatsonException] with the
    missing-credentials text.  In particular the placeholder username
    ["YOUR SERVICE USERNAME"] with any password, no api key, and no
    registry (bindings switched off, or [VCAP_SERVICES] unset) is
    rejected that way. *)
Theorem missing_credentials_rejected (name : string) (u usr pwd : pyval)
    (use_vcap : bool) (key : pyval) (w : world) :
  (forall self w',
      resolve_credentials json_loads name u usr pwd use_vcap key w
      = (Ok self, w') ->
      username self = PNone \/ password self = PNone ->
      api_key self = PNone ->
      __init__ json_loads name u usr pwd use_vcap key w
      = (Raise (WatsonException (PStr missing_credentials_message)), w'))
  /\ (usr = PStr "YOUR SERVICE USERNAME" ->
      key = PNone ->
      use_vcap = false \/ lookup_env "VCAP_SERVICES" (environ w) = None ->
      fst (__init__ json_loads name u usr pwd use_vcap key w)
      = Raise (WatsonException (PStr missing_credentials_message))).
Proof.
  split.
  - intros self w' Hres Hbasic Hkey.
    unfold __init__, bind. rewrite Hres.
    unfold final_validation. rewrite Hkey.
    destruct Hbasic as [H | H]; rewrite H; cbn;
      rewrite ?orb_true_r; reflexivity.
  - intros -> -> Hreg.
    unfold __init__, resolve_credentials, take_explicit_credentials,
      take_service_binding, set_username_and_password, new_CookieJar.
    run_monad.
    destruct use_vcap; cbn; [|reflexivity].
    destruct Hreg as [Hreg | Hreg]; [discriminate|].
    match goal with
    | |- context [load_from_vcap_services json_loads name ?w1] =>
        pose proof (load_from_vcap_services_unset name w1 Hreg) as Hload;
        destruct (load_from_vcap_services json_loads name w1) as [r w2]
    end.
    cbn in Hload. subst r. reflexivity.
Qed.

(** C2, as the code has it: right after a construction that took no
    mapping from the registry, Basic mode and ApiKey mode are not both
    active, and a request prepared in that state either carries no
    basic-auth pair or has had no [apikey] parameter added. *)
Theorem modes_exclusive_without_binding (name : string) (u usr pwd : pyval)
    (use_vcap : bool) (key : pyval) (w : world) (self : client) (w' : world) :
  __init__ json_loads name u usr pwd use_vcap key w = (Ok self, w') ->
  binding_applied self = false ->
  basic_active self && apikey_active self = false
  /\ (forall method path accept_json headers params json' data kwargs sent,
         prepare_request self method path accept_json headers params
           json' data kwargs = Ok sent ->
         sent_auth sent = None
         \/ sent_params sent = _remove_null_values params).
Proof.
  intros Hinit Hnb.
  apply init_inv in Hinit. destruct Hinit as [Hres _].
  apply resolve_without_binding in Hres; auto.
  destruct Hres as [_ Hfields].
  assert (Hone : basic_active self = false \/ apikey_active self = false).
  { unfold basic_active, apikey_active.
    destruct (Py.is_none key).
    - destruct Hfields as (-> & _). now right.
    - destruct Hfields as (_ & -> & _). now left. }
  split.
  - destruct Hone as [-> | ->]; auto using andb_false_r.
  - intros method path accept_json headers params json' data kwargs sent.
    unfold prepare_request.
    destruct (Py.add (url self) path); [|discriminate].
    fold (basic_active self). fold (apikey_active self).
    destruct Hone as [-> | ->].
    + destruct (if apikey_active self then _ else _); [|discriminate].
      intros H; inversion H; subst; now left.
    + intros H; inversion H; subst; now right.
Qed.

(** C7, as the code has it: the constructor reads the registry only when
    bindings are switched on and the explicit arguments gave neither a
    truthy username nor a truthy api key; and when they gave one, the
    constructed client holds exactly the explicit values (placeholders
    removed) and the explicit base URL, and the environment was not read. *)
Theorem explicit_usable_credentials_kept (name : string) (u usr pwd : pyval)
    (use_vcap : bool) (key : pyval) (w : world) :
  (forall r w',
      __init__ json_loads name u usr pwd use_vcap key w = (r, w') ->
      log w' <> log w ->
      use_vcap = true
      /\ Py.truthy (without_placeholder "YOUR SERVICE USERNAME" usr) = false
      /\ Py.truthy (without_placeholder "YOUR API KEY" key) = false)
  /\ (forall self w',
         __init__ json_loads name u usr pwd use_vcap key w = (Ok self, w') ->
         Py.truthy (without_placeholder "YOUR SERVICE USERNAME" usr) = true
         \/ Py.truthy (without_placeholder "YOUR API KEY" key) = true ->
         url self = u
         /\ username self = without_placeholder "YOUR SERVICE USERNAME" usr
         /\ password self = without_placeholder "YOUR SERVICE PASSWORD" pwd
         /\ api_key self = without_placeholder "YOUR API KEY" key
         /\ log w' = log w).
Proof.
  assert (Hstep : forall r w',
    __init__ json_loads name u usr pwd use_vcap key w = (r, w') ->
    (use_vcap = true
     /\ Py.truthy (without_placeholder "YOUR SERVICE USERNAME" usr) = false
     /\ Py.truthy (without_placeholder "YOUR API KEY" key) = false)
    \/ (log w' = log w
        /\ forall self, r = Ok self ->
             url self = u
             /\ username self = without_placeholder "YOUR SERVICE USERNAME" usr
             /\ password self = without_placeholder "YOUR SERVICE PASSWORD" pwd
             /\ api_key self = without_placeholder "YOUR API KEY" key)).
  { intros r w'. unfold __init__, resolve_credentials, bind.
    destruct (take_explicit_credentials u usr pwd key w) as [[c|e] w1] eqn:E.
    - pose proof (take_explicit_credentials_log _ _ _ _ _ _ _ E) as Hlog.
      pose proof E as Hraw.
      apply take_explicit_credentials_ok in E.
      destruct E as (Hu & _ & _ & Hfields).
      assert (Hc : username c = without_placeholder "YOUR SERVICE USERNAME" usr
                   /\ password c = without_placeholder "YOUR SERVICE PASSWORD" pwd
                   /\ api_key c = without_placeholder "YOUR API KEY" key).
      { revert Hraw. unfold take_explicit_credentials.
        destruct key; cbn in Hfields |- *;
          try (destruct usr, pwd; cbn; try discriminate;
               intros _; destruct Hfields as (-> & -> & ->); now auto). }
      destruct Hc as (Hn & Hp & Hk).
      unfold take_service_binding.
      rewrite Hn, Hk.
      destruct use_vcap; cbn.
      + destruct (Py.truthy (without_placeholder "YOUR SERVICE USERNAME" usr));
          cbn.
        * intros H. right.
          destruct (final_validation c w1) as [r0 w0] eqn:F.
          apply final_validation_world in F as Hw. subst w0.
          inversion H; subst. split; auto.
          intros self ->. unfold final_validation in F.
          destruct (_ && _) in F; cbn in F; inversion F; subst. auto.
        * destruct (Py.truthy (without_placeholder "YOUR API KEY" key)); cbn.
          -- intros H. right.
             destruct (final_validation c w1) as [r0 w0] eqn:F.
             apply final_validation_world in F as Hw. subst w0.
             inversion H; subst. split; auto.
             intros self ->. unfold final_validation in F.
             destruct (_ && _) in F; cbn in F; inversion F; subst. auto.
          -- intros _. left. auto.
      + intros H. right.
        destruct (final_validation c w1) as [r0 w0] eqn:F.
        apply final_validation_world in F as Hw. subst w0.
        inversion H; subst. split; auto.
        intros self ->. unfold final_validation in F.
        destruct (_ && _) in F; cbn in F; inversion F; subst. auto.
    - apply take_explicit_credentials_log in E.
      intros H; inversion H; subst. right. split; auto. discriminate. }
  split.
  - intros r w' H Hlog.
    destruct (Hstep _ _ H) as [Hread | [Hsame _]]; [exact Hread | congruence].
  - intros self w' H Husable.
    destruct (Hstep _ _ H) as [(_ & Hn & Hk) | [Hsame Hkept]].
    + destruct Husable; congruence.
    + destruct (Hkept self eq_refl) as (? & ? & ? & ?). auto.
Qed.

End Construction.

(** ** The request pipeline *)

Lemma get_error_message_spec (resp : response) :
  (if status_code resp =? 401 then PStr unauthorized_message
   else _get_error_message resp)
  = error_message_spec resp.
Proof.
  unfold error_message_spec, _get_error_message.
  destruct (status_code resp =? 401); [reflexivity|].
  destruct (json resp) as [v|e]; [|reflexivity].
  destruct v as [| b | z | s | l | d]; try reflexivity; cbn.
  - destruct (Py.substring_of "error" s), (Py.substring_of "error_message" s);
      reflexivity.
  - destruct (existsb (fun x => Py.eq_str x "error") l),
      (existsb (fun x => Py.eq_str x "error_message") l); reflexivity.
  - unfold Py.dict_mem.
    destruct (Py.dict_get "error" d), (Py.dict_get "error_message" d);
      reflexivity.
Qed.

Lemma status_info_code_cases (body : dict) :
  (status_info_code body = 401
   <-> Py.dict_get "statusInfo" body = Some (PStr "invalid-api-key"))
  /\ (status_info_code body = 400 \/ status_info_code body = 401).
Proof.
  unfold status_info_code.
  destruct (Py.dict_get "statusInfo" body) as [[| b | z | s | l | d]|];
    try (split; [split; intros H; discriminate H | now left]).
  destruct (s =? "invalid-api-key")%string eqn:E.
  - apply String.eqb_eq in E. subst. split; [tauto | now right].
  - split; [| now left].
    split; intros H; [discriminate|].
    inversion H; subst. now rewrite String.eqb_refl in E.
Qed.

Section Requests.

Variable requests_request :
  sent_request -> option (list cookie) -> result response * list cookie.

(** A call whose arguments are well formed and whose transport answers
    goes on to classify that answer, held by a new response object. *)
Lemma request_received (self : client) (method path : pyval)
    (accept_json : bool) (headers : option dict) (params json' data : pyval)
    (kwargs : dict) (w : world) (sent : sent_request) (resp : response)
    (cookies' : list cookie) :
  prepare_request self method path accept_json headers params json' data
    kwargs = Ok sent ->
  requests_request sent (cookies_shown w sent) = (Ok resp, cookies') ->
  exists w1,
    responses w1 = (responses w ++ [resp])%list
    /\ request requests_request self method path accept_json headers params
         json' data kwargs w
       = classify_response accept_json (length (responses w)) resp w1.
Proof.
  intros Hprep Hsend.
  unfold request, bind, lift. rewrite Hprep.
  unfold dispatch. fold (cookies_shown w sent). rewrite Hsend.
  eexists. split; [|reflexivity]. reflexivity.
Qed.

Lemma add_non_string (s : string) (v : pyval) :
  (forall t, v <> PStr t) -> Py.add (PStr s) v = Raise TypeError.
Proof.
  intros Hns. destruct v as [| b | z | t | l | d]; try reflexivity.
  now destruct (Hns t).
Qed.

(** C4, as the code has it: when the transport answers with a status
    outside 200..299, the message is the fixed unauthorized text for 401 and
    otherwise the body's ["error_message"], else its ["error"], else
    ["Unknown error"] (also when the body does not decode to a mapping).
    When that message is a string the call raises [WatsonException] whose
    text is exactly ["Error: " + message + ", Code: " + str(status)]; when
    the field read holds anything else ([null], a number, a mapping) the
    call raises [TypeError] instead. *)
Theorem error_status_reported (self : client) (method path : pyval)
    (accept_json : bool) (headers : option dict) (params json' data : pyval)
    (kwargs : dict) (w : world) (sent : sent_request) (resp : response)
    (cookies' : list cookie) :
  prepare_request self method path accept_json headers params json' data
    kwargs = Ok sent ->
  requests_request sent (cookies_shown w sent) = (Ok resp, cookies') ->
  status_code resp < 200 \/ 299 < status_code resp ->
  fst (request requests_request self method path accept_json headers params
         json' data kwargs w)
  = match error_message_spec resp with
    | PStr message =>
        Raise (WatsonException
                 (PStr ("Error: " ++ message ++ ", Code: "
                          ++ Py.str_of_int (status_code resp))))
    | _ => Raise TypeError
    end.
Proof.
  intros Hprep Hsend Hstatus.
  destruct (request_received _ _ _ _ _ _ _ _ _ _ _ _ _ Hprep Hsend)
    as (w1 & _ & ->).
  unfold classify_response.
  assert (Hout : (200 <=? status_code resp) && (status_code resp <=? 299)
                 = false).
  { apply andb_false_iff. rewrite Z.leb_gt, Z.leb_gt. lia. }
  rewrite Hout, get_error_message_spec.
  destruct (error_message_spec resp) as [| b | z | message | l | d] eqn:Hmsg;
    try (unfold bind, lift; rewrite add_non_string by discriminate;
         reflexivity).
  run_monad. now rewrite !append_assoc.
Qed.

(** C3, as the code has it: when a call made with [accept_json] gets a 2xx
    answer whose decoded body is a mapping with ["status"] equal to
    ["ERROR"], no body is returned.  With ["statusInfo"] absent or a string
    the call raises [WatsonException] holding the text ["Error: "] followed
    by the message (["Unknown error"] without one) and nothing else; with a
    ["statusInfo"] that is not a string it raises [TypeError].  The status
    is not part of the raised error: 400, or 401 exactly when
    ["statusInfo"] is ["invalid-api-key"], is written to the response
    object's status code. *)
Theorem disguised_error_classified (self : client) (method path : pyval)
    (headers : option dict) (params json' data : pyval) (kwargs : dict)
    (w : world) (sent : sent_request) (resp : response)
    (cookies' : list cookie) (body : dict) :
  prepare_request self method path true headers params json' data kwargs
  = Ok sent ->
  requests_request sent (cookies_shown w sent) = (Ok resp, cookies') ->
  200 <= status_code resp <= 299 ->
  json resp = Ok (PDict body) ->
  Py.dict_get "status" body = Some (PStr "ERROR") ->
  exists w',
    request requests_request self method path true headers params json'
      data kwargs w
    = (match status_info_message body with
       | PStr message => Raise (WatsonException (PStr ("Error: " ++ message)))
       | _ => Raise TypeError
       end, w')
    /\ nth_error (responses w') (length (responses w))
       = Some (mkResponse (status_info_code body) (content resp) (json resp))
    /\ (status_info_code body = 401
        <-> Py.dict_get "statusInfo" body = Some (PStr "invalid-api-key"))
    /\ (status_info_code body = 400 \/ status_info_code body = 401).
Proof.
  intros Hprep Hsend Hstatus Hjson Herr.
  destruct (request_received _ _ _ _ _ _ _ _ _ _ _ _ _ Hprep Hsend)
    as (w1 & Hw1 & ->).
  unfold classify_response.
  assert (Hin : (200 <=? status_code resp) && (status_code resp <=? 299)
                = true).
  { apply andb_true_iff. rewrite !Z.leb_le. lia. }
  rewrite Hin, Hjson.
  pose proof (status_info_code_cases body) as Hcases.
  unfold set_status_code, status_info_message, status_info_code in *.
  run_monad. unfold Py.dict_mem. rewrite Herr. cbn.
  rewrite Hw1, nth_error_snoc, list_set_snoc.
  destruct (Py.dict_get "statusInfo" body) as [info|] eqn:Hinfo; cbn.
  - destruct info as [| b | z | message | l | d]; cbn;
      try (eexists; split; [reflexivity|]; cbn; rewrite nth_error_snoc;
           rewrite Hjson; split; [reflexivity | exact Hcases]).
    destruct (message =? "invalid-api-key")%string eqn:E; cbn.
    + rewrite nth_error_snoc, list_set_snoc.
      eexists. split; [reflexivity|]. cbn. rewrite nth_error_snoc.
      rewrite Hjson. split; [reflexivity | exact Hcases].
    + eexists. split; [reflexivity|]. cbn. rewrite nth_error_snoc.
      rewrite Hjson. split; [reflexivity | exact Hcases].
  - eexists. split; [reflexivity|]. cbn. rewrite nth_error_snoc.
    rewrite Hjson. split; [reflexivity | exact Hcases].
Qed.

End Requests.

(** ** The text/HTML router *)

Lemma output_mode_set (d : dict) :
  Py.dict_get "outputMode"
    (map (fun kv => (fst kv, _convert_boolean_value (snd kv)))
       (Py.dict_set "outputMode" (PStr "json") d))
  = Some (PStr "json").
Proof. now rewrite dict_get_convert, dict_get_set_same. Qed.

Lemma alchemy_html_call_params (method_name url' html text params method : pyval) :
  params = PNone \/ (exists d, params = PDict d) ->
  exists d,
    Py.dict_get "outputMode" d = Some (PStr "json")
    /\ alchemy_html_call method_name url' html text params method PNone
       = if Py.truthy url' then
           match Py.add (PStr "/url/URL") method_name with
           | Ok p => Ok (mkCall method p (PDict (Py.dict_set "url" url' d))
                           (PDict [("html", html); ("text", text)])
                           [("content-type",
                             PStr "application/x-www-form-urlencoded")])
           | Raise e => Raise e
           end
         else if Py.truthy html then
           match Py.add (PStr "/html/HTML") method_name with
           | Ok p => Ok (mkCall method p (PDict d)
                           (PDict [("html", html); ("text", text)])
                           [("content-type",
                             PStr "application/x-www-form-urlencoded")])
           | Raise e => Raise e
           end
         else if Py.truthy text then
           match Py.add (PStr "/text/Text") method_name with
           | Ok p => Ok (mkCall method p (PDict d)
                           (PDict [("html", html); ("text", text)])
                           [("content-type",
                             PStr "application/x-www-form-urlencoded")])
           | Raise e => Raise e
           end
         else Raise (WatsonInvalidArgument
                       (PStr "url, html or text must be specified")).
Proof.
  intros [-> | [d ->]].
  - exists [("outputMode", PStr "json")]. split; reflexivity.
  - eexists. split; [apply (output_mode_set d)|]. reflexivity.
Qed.

(** The arguments the router computes, branch by branch: the first of
    [url], [html], [text] that is truthy decides the path; the parameters
    have [outputMode=json]; the form body is [{"html": html, "text": text}]. *)
Theorem alchemy_html_routing (suffix : string)
    (url' html text params method : pyval) :
  params = PNone \/ (exists d, params = PDict d) ->
  let routed :=
    alchemy_html_call (PStr suffix) url' html text params method PNone in
  (Py.truthy url' = true ->
     routes_to routed ("/url/URL" ++ suffix) html text
     /\ exists call, routed = Ok call
                     /\ Py.getitem (call_params call) "url" = Ok url')
  /\ (Py.truthy url' = false -> Py.truthy html = true ->
        routes_to routed ("/html/HTML" ++ suffix) html text)
  /\ (Py.truthy url' = false -> Py.truthy html = false ->
      Py.truthy text = true ->
        routes_to routed ("/text/Text" ++ suffix) html text)
  /\ (Py.truthy url' = false -> Py.truthy html = false ->
      Py.truthy text = false ->
        routed = Raise (WatsonInvalidArgument
                          (PStr "url, html or text must be specified")))
  /\ alchemy_html_call (PStr "Sentiment") PNone PNone (PStr "hello") PNone
       (PStr "POST") PNone
     = Ok (mkCall (PStr "POST") (PStr "/text/TextSentiment")
             (PDict [("outputMode", PStr "json")])
             (PDict [("html", PNone); ("text", PStr "hello")])
             [("content-type", PStr "application/x-www-form-urlencoded")]).
Proof.
  intros Hparams routed.
  destruct (alchemy_html_call_params (PStr suffix) url' html text params
              method Hparams) as (d & Hmode & Hcall).
  fold routed in Hcall. clearbody routed. subst routed.
  unfold routes_to.
  assert (Hne : "outputMode" <> "url") by discriminate.
  split; [|split; [|split; [|split]]].
  - intros ->. split.
    + eexists. split; [reflexivity|]. cbn.
      rewrite (dict_get_set_other _ _ _ _ Hne), Hmode. auto.
    + eexists. split; [reflexivity|]. cbn.
      now rewrite dict_get_set_same.
  - intros -> ->. eexists. split; [reflexivity|]. cbn.
    rewrite Hmode. auto.
  - intros -> -> ->. eexists. split; [reflexivity|]. cbn.
    rewrite Hmode. auto.
  - intros -> -> ->. reflexivity.
  - reflexivity.
Qed.

(** C8: a router call without an override path is the [request] call
    chosen by the first of [url], [html], [text] that is present (truthy: an
    empty string counts as absent): to ["/url/URL" + suffix] with the url
    among the parameters, else to ["/html/HTML" + suffix], else to
    ["/text/Text" + suffix]; each time with the caller's method, JSON asked
    for, the form content type, [outputMode=json] among the parameters and
    the form body [{"html": html, "text": text}] (before [request] strips
    it).  With none of the three the call raises [WatsonInvalidArgument] and
    nothing is sent.  With only [text="hello"] and suffix ["Sentiment"] it is
    the request to ["/text/TextSentiment"] with parameters
    [{"outputMode": "json"}] and body [{"html": None, "text": "hello"}]. *)
Theorem alchemy_html_request_routed
    (requests_request :
       sent_request -> option (list cookie) -> result response * list cookie)
    (self : client) (suffix : string) (url' html text params method : pyval)
    (w : world) :
  params = PNone \/ (exists d, params = PDict d) ->
  let routed :=
    _alchemy_html_request requests_request self (PStr suffix) url' html text
      params method PNone w in
  let sends path sent_p :=
    request requests_request self method (PStr path) true
      (Some [("content-type", PStr "application/x-www-form-urlencoded")])
      (PDict sent_p) PNone (PDict [("html", html); ("text", text)]) [] w in
  (Py.truthy url' = true ->
     exists sent_p,
       routed = sends ("/url/URL" ++ suffix) sent_p
       /\ Py.dict_get "url" sent_p = Some url'
       /\ Py.dict_get "outputMode" sent_p = Some (PStr "json"))
  /\ (Py.truthy url' = false -> Py.truthy html = true ->
        exists sent_p,
          routed = sends ("/html/HTML" ++ suffix) sent_p
          /\ Py.dict_get "outputMode" sent_p = Some (PStr "json"))
  /\ (Py.truthy url' = false -> Py.truthy html = false ->
      Py.truthy text = true ->
        exists sent_p,
          routed = sends ("/text/Text" ++ suffix) sent_p
          /\ Py.dict_get "outputMode" sent_p = Some (PStr "json"))
  /\ (Py.truthy url' = false -> Py.truthy html = false ->
      Py.truthy text = false ->
        routed = (Raise (WatsonInvalidArgument
                           (PStr "url, html or text must be specified")), w))
  /\ _alchemy_html_request requests_request self (PStr "Sentiment") PNone
       PNone (PStr "hello") PNone (PStr "POST") PNone w
     = request requests_request self (PStr "POST")
         (PStr "/text/TextSentiment") true
         (Some [("content-type", PStr "application/x-www-form-urlencoded")])
         (PDict [("outputMode", PStr "json")]) PNone
         (PDict [("html", PNone); ("text", PStr "hello")]) [] w.
Proof.
  intros Hparams routed sends. subst routed sends. cbv beta.
  unfold _alchemy_html_request.
  destruct (alchemy_html_call_params (PStr suffix) url' html text params
              method Hparams) as (d & Hmode & ->).
  assert (Hne : "outputMode" <> "url") by discriminate.
  split; [|split; [|split; [|split]]].
  - intros ->. eexists. split; [reflexivity|].
    split; [apply dict_get_set_same|].
    now rewrite (dict_get_set_other _ _ _ _ Hne).
  - intros -> ->. eexists. split; [reflexivity | exact Hmode].
  - intros -> -> ->. eexists. split; [reflexivity | exact Hmode].
  - intros -> -> ->. reflexivity.
  - reflexivity.
Qed.

Lemma alchemy_html_request_routed_witness :
  exists sent_p,
    _alchemy_html_request (answer_with not_found_answer) keyed_client
      (PStr "Sentiment") PNone PNone (PStr "hello") PNone (PStr "POST") PNone
      one_jar_world
    = request (answer_with not_found_answer) keyed_client (PStr "POST")
        (PStr ("/text/Text" ++ "Sentiment")) true
        (Some [("content-type", PStr "application/x-www-form-urlencoded")])
        (PDict sent_p) PNone (PDict [("html", PNone); ("text", PStr "hello")])
        [] one_jar_world
    /\ Py.dict_get "outputMode" sent_p = Some (PStr "json").
Proof.
  pose proof (alchemy_html_request_routed (answer_with not_found_answer)
                keyed_client "Sentiment" PNone PNone (PStr "hello") PNone
                (PStr "POST") one_jar_world (or_introl eq_refl)) as H.
  cbv zeta in H.
  destruct H as (_ & _ & Htext & _).
  apply Htext; reflexivity.
Defined.

(** ** Concrete runs *)

Lemma unpack_id_examples :
  unpack_id (PDict [("id", PStr "abc")]) "id" = Ok (PStr "abc")
  /\ unpack_id (PDict [("name", PStr "abc")]) "id"
     = Ok (PDict [("name", PStr "abc")]).
Proof. split; reflexivity. Qed.

Lemma api_key_excludes_basic_witness :
  __init__ no_decoder "svc" (PStr "https://host.example/api") (PStr "user")
    PNone true (PStr "YOUR API KEY") empty_world
  = (Raise (WatsonInvalidArgument
              (PStr "Cannot set api_key and username and password together")),
     empty_world).
Proof.
  apply api_key_excludes_basic; [discriminate | left; discriminate].
Defined.

Lemma binding_api_key_adopted_witness :
  exists self w',
    __init__ keyed_decoder "svc" (PStr "https://host.example/api") PNone PNone
      true PNone bound_world = (Ok self, w')
    /\ api_key self = PStr "bound-key"
    /\ url self = PStr "https://bound.example/api"
    /\ apikey_active self = true.
Proof.
  apply (binding_api_key_adopted keyed_decoder "svc"
           (PStr "https://host.example/api") bound_world "registry"
           [("svc",
             PList [PDict [("credentials",
                            PDict [("url", PStr "https://bound.example/api");
                                   ("apikey", PStr "bound-key")])]])]
           [("credentials",
             PDict [("url", PStr "https://bound.example/api");
                    ("apikey", PStr "bound-key")])]
           [("url", PStr "https://bound.example/api");
            ("apikey", PStr "bound-key")]
           []);
    try reflexivity.
  discriminate.
Defined.

Lemma missing_credentials_rejected_witness :
  __init__ no_decoder "svc" (PStr "https://host.example/api") PNone
    (PStr "secret") false PNone empty_world
  = (Raise (WatsonException (PStr missing_credentials_message)), one_jar_world)
  /\ fst (__init__ no_decoder "svc" (PStr "https://host.example/api")
            (PStr "YOUR SERVICE USERNAME") (PStr "secret") true PNone
            empty_world)
     = Raise (WatsonException (PStr missing_credentials_message)).
Proof.
  split.
  - apply (proj1 (missing_credentials_rejected no_decoder "svc"
                    (PStr "https://host.example/api") PNone (PStr "secret")
                    false PNone empty_world)
             (mkClient (PStr "https://host.example/api") (Some 0%nat) PNone
                PNone (PStr "secret") None)
             one_jar_world);
      [reflexivity | left; reflexivity | reflexivity].
  - apply (proj2 (missing_credentials_rejected no_decoder "svc"
                    (PStr "https://host.example/api")
                    (PStr "YOUR SERVICE USERNAME") (PStr "secret")
                    true PNone empty_world));
      [reflexivity | reflexivity | right; reflexivity].
Defined.

(** Against C1 as worded: with empty strings for username and password, no
    api key and no registry, nothing complete was resolved, yet the
    constructor succeeds. *)
Lemma empty_credentials_accepted :
  exists self w',
    resolve_credentials no_decoder "svc" (PStr "https://host.example/api")
      (PStr EmptyString) (PStr EmptyString) false PNone empty_world
    = (Ok self, w')
    /\ complete_credentials self = false
    /\ __init__ no_decoder "svc" (PStr "https://host.example/api")
         (PStr EmptyString) (PStr EmptyString) false PNone empty_world
    = (Ok self, w').
Proof. do 2 eexists. repeat split. Qed.

Lemma modes_exclusive_without_binding_witness :
  let sent := mkSent (PStr "GET") (PStr "https://host.example/api/v1/ping")
                (Some 0%nat) None PNone (PDict [("apikey", PStr "k")])
                PNone PNone [] in
  basic_active keyed_client && apikey_active keyed_client = false
  /\ (sent_auth sent = None \/ sent_params sent = _remove_null_values PNone).
Proof.
  intros sent.
  destruct (modes_exclusive_without_binding no_decoder "svc"
              (PStr "https://host.example/api") PNone PNone false (PStr "k")
              empty_world keyed_client one_jar_world eq_refl eq_refl)
    as [Hmodes Hsent].
  split; [exact Hmodes|].
  apply (Hsent (PStr "GET") (PStr "/v1/ping") false None PNone PNone PNone []).
  reflexivity.
Defined.

(** Against C2 as worded: a client built with an api key and then given a
    username and password has both modes active, and the request it
    prepares carries the basic-auth pair and the [apikey] parameter. *)
Lemma both_modes_after_setter :
  exists self w sent,
    lifetime no_decoder self w
    /\ basic_active self = true
    /\ apikey_active self = true
    /\ prepare_request self (PStr "GET") (PStr "/v1/ping") false None PNone
         PNone PNone [] = Ok sent
    /\ sent_auth sent = Some (PStr "user", PStr "secret")
    /\ Py.getitem (sent_params sent) "apikey" = Ok (PStr "k").
Proof.
  do 3 eexists. split.
  - eapply (life_set_username_and_password no_decoder keyed_client
              one_jar_world (PStr "user") (PStr "secret")).
    + eapply (life_constructed no_decoder "svc"
                (PStr "https://host.example/api") PNone PNone false (PStr "k")
                empty_world).
      reflexivity.
    + reflexivity.
  - repeat split.
Qed.

Lemma explicit_usable_credentials_kept_witness :
  let self := mkClient (PStr "https://host.example/api") (Some 0%nat) PNone
                (PStr "user") (PStr "secret") None in
  let w' := mkWorld [("VCAP_SERVICES", "registry")] [[]] [] [] in
  url self = PStr "https://host.example/api"
  /\ username self = PStr "user"
  /\ password self = PStr "secret"
  /\ api_key self = PNone
  /\ log w' = log bound_world.
Proof.
  intros self w'.
  apply (proj2 (explicit_usable_credentials_kept sample_decoder "svc"
                  (PStr "https://host.example/api") (PStr "user")
                  (PStr "secret") true PNone bound_world) self w');
    [reflexivity | left; reflexivity].
Defined.

(** Against C7 as worded: a password given explicitly without a username
    is replaced by the password of the binding. *)
Lemma explicit_password_overwritten :
  exists self w',
    __init__ sample_decoder "svc" (PStr "https://host.example/api") PNone
      (PStr "explicit") true PNone bound_world = (Ok self, w')
    /\ password self = PStr "bound-password"
    /\ password self <> PStr "explicit".
Proof. do 2 eexists. repeat split. discriminate. Qed.

Lemma error_status_reported_witness :
  fst (request (answer_with not_found_answer) keyed_client (PStr "GET")
         (PStr "/v1/missing") true None PNone PNone PNone [] one_jar_world)
  = Raise (WatsonException (PStr "Error: not found, Code: 404")).
Proof.
  apply (error_status_reported (answer_with not_found_answer) keyed_client
           (PStr "GET") (PStr "/v1/missing") true None PNone PNone PNone []
           one_jar_world
           (mkSent (PStr "GET") (PStr "https://host.example/api/v1/missing")
              (Some 0%nat) None (PDict [("accept", PStr "application/json")])
              (PDict [("apikey", PStr "k")]) PNone PNone [])
           not_found_answer []);
    [reflexivity | reflexivity | right; reflexivity].
Defined.

(** Against C4 as worded: a 500 answer whose ["error"] is a mapping, or
    whose ["error_message"] is [null] over a string ["error"], does not end
    in an error with the stated text: the call raises [TypeError]. *)
Lemma non_string_error_raises_type_error :
  fst (request (answer_with nested_error_answer) keyed_client (PStr "GET")
         (PStr "/v1/missing") true None PNone PNone PNone [] one_jar_world)
  = Raise TypeError
  /\ fst (request (answer_with null_message_answer) keyed_client (PStr "GET")
            (PStr "/v1/missing") true None PNone PNone PNone [] one_jar_world)
     = Raise TypeError
  /\ forall text,
       fst (request (answer_with null_message_answer) keyed_client (PStr "GET")
              (PStr "/v1/missing") true None PNone PNone PNone [] one_jar_world)
       <> Raise (WatsonException text).
Proof. repeat split. discriminate. Qed.

Lemma disguised_error_classified_witness :
  exists w',
    request (answer_with invalid_key_answer) keyed_client (PStr "GET")
      (PStr "/v1/ask") true None PNone PNone PNone [] one_jar_world
    = (Raise (WatsonException (PStr "Error: invalid-api-key")), w')
    /\ nth_error (responses w') 0
       = Some (mkResponse 401 EmptyString (json invalid_key_answer)).
Proof.
  assert (Hrange : 200 <= status_code invalid_key_answer <= 299)
    by (cbn; lia).
  destruct (disguised_error_classified (answer_with invalid_key_answer)
              keyed_client (PStr "GET") (PStr "/v1/ask") None PNone PNone PNone
              [] one_jar_world
              (mkSent (PStr "GET") (PStr "https://host.example/api/v1/ask")
                 (Some 0%nat) None
                 (PDict [("accept", PStr "application/json")])
                 (PDict [("apikey", PStr "k")]) PNone PNone [])
              invalid_key_answer []
              [("status", PStr "ERROR"); ("statusInfo", PStr "invalid-api-key")]
              eq_refl eq_refl Hrange eq_refl eq_refl)
    as (w' & Hrun & Hstatus & _).
  exists w'. split; [exact Hrun | exact Hstatus].
Defined.

(** Against C3 as worded: with a number for ["statusInfo"] the call does not
    end in a service error at all but in [TypeError]; and with
    ["invalid-api-key"] the raised error holds the text and nothing else,
    the 401 being found only on the response object. *)
Lemma disguised_error_carries_no_status :
  fst (request (answer_with numeric_info_answer) keyed_client (PStr "GET")
         (PStr "/v1/ask") true None PNone PNone PNone [] one_jar_world)
  = Raise TypeError
  /\ (forall text,
        fst (request (answer_with numeric_info_answer) keyed_client
               (PStr "GET") (PStr "/v1/ask") true None PNone PNone PNone []
               one_jar_world)
        <> Raise (WatsonException text))
  /\ request (answer_with invalid_key_answer) keyed_client (PStr "GET")
       (PStr "/v1/ask") true None PNone PNone PNone [] one_jar_world
     = (Raise (WatsonException (PStr "Error: invalid-api-key")),
        mkWorld [] [[]]
          [mkResponse 401 EmptyString (json invalid_key_answer)]
          [EvHttp (mkSent (PStr "GET") (PStr "https://host.example/api/v1/ask")
                     (Some 0%nat) None
                     (PDict [("accept", PStr "application/json")])
                     (PDict [("apikey", PStr "k")]) PNone PNone [])]).
Proof. repeat split. discriminate. Qed.

Lemma alchemy_html_routing_witness :
  routes_to
    (alchemy_html_call (PStr "Sentiment") PNone PNone (PStr "hello") PNone
       (PStr "POST") PNone)
    "/text/TextSentiment" PNone (PStr "hello").
Proof.
  pose proof (alchemy_html_routing "Sentiment" PNone PNone (PStr "hello") PNone
                (PStr "POST") (or_introl eq_refl)) as H.
  cbv zeta in H.
  destruct H as (_ & _ & Htext & _).
  apply Htext; reflexivity.
Defined.

Lemma set_url_keeps_session_witness :
  (exists self',
      set_url keyed_client (PStr "https://other.example/api") one_jar_world
      = (Ok self', one_jar_world)
      /\ url self' = PStr "https://other.example/api"
      /\ jar self' = jar keyed_client
      /\ username self' = username keyed_client
      /\ password self' = password keyed_client
      /\ api_key self' = api_key keyed_client)
  /\ (exists self' w',
         set_api_key keyed_client (PStr "other") one_jar_world = (Ok self', w')
         /\ jar self' = Some 1%nat
         /\ jar_contents w' 1 = Some []
         /\ jar_contents w' 0 = jar_contents one_jar_world 0).
Proof.
  destruct (set_url_keeps_session keyed_client one_jar_world)
    as (Hurl & _ & Hkey).
  split; [apply Hurl|].
  destruct (Hkey (PStr "other")) as (self' & w' & Hrun & Hjar & _ & Hnew & Hold).
  exists self', w'. repeat split; auto.
Defined.

(** ** Sanitizing helpers *)

Lemma dict_get_In (k : string) (v : pyval) (d : dict) :
  Py.dict_get k d = Some v -> In (k, v) d.
Proof.
  induction d as [|[k' v'] d IH]; simpl; [discriminate|].
  destruct (k' =? k)%string eqn:E.
  - apply String.eqb_eq in E. intros H; inversion H; subst. now left.
  - intros H. right. auto.
Qed.

Lemma dict_get_not_key (k : string) (d : dict) :
  ~ In k (map fst d) -> Py.dict_get k d = None.
Proof.
  induction d as [|[k' v'] d IH]; simpl; [reflexivity|].
  intros Hn. destruct (k' =? k)%string eqn:E.
  - apply String.eqb_eq in E. tauto.
  - apply IH. tauto.
Qed.

Lemma dict_get_filter_kept (k : string) (v : pyval) (d : dict) :
  Py.dict_get k d = Some v -> Py.is_none v = false ->
  Py.dict_get k (filter (fun kv => negb (Py.is_none (snd kv))) d) = Some v.
Proof.
  induction d as [|[k' v'] d IH]; simpl; [discriminate|].
  destruct (k' =? k)%string eqn:E.
  - intros H Hv; inversion H; subst. rewrite Hv. simpl. now rewrite E.
  - intros H Hv. destruct (negb (Py.is_none v')); simpl; [rewrite E|]; auto.
Qed.

Lemma dict_get_filter_some (k : string) (v : pyval) (d : dict) :
  Py.dict_get k (filter (fun kv => negb (Py.is_none (snd kv))) d) = Some v ->
  Py.is_none v = false /\ In (k, v) d.
Proof.
  intros H. apply dict_get_In in H. apply filter_In in H.
  destruct H as [Hin Hv]. simpl in Hv.
  split; [now destruct (Py.is_none v)|assumption].
Qed.

Lemma dict_get_filter_unique (k : string) (d : dict) :
  unique_keys d ->
  Py.dict_get k (filter (fun kv => negb (Py.is_none (snd kv))) d)
  = match Py.dict_get k d with
    | Some v => if Py.is_none v then None else Some v
    | None => None
    end.
Proof.
  unfold unique_keys.
  induction d as [|[k' v'] d IH]; simpl; [reflexivity|].
  intros Hu. inversion Hu as [|? ? Hnotin Hu']; subst.
  destruct (k' =? k)%string eqn:E.
  - apply String.eqb_eq in E. subst k'.
    destruct (Py.is_none v') eqn:Hv; simpl.
    + rewrite (IH Hu'), (dict_get_not_key k d Hnotin). reflexivity.
    + now rewrite String.eqb_refl.
  - destruct (negb (Py.is_none v')); simpl; [rewrite E|]; auto.
Qed.

Lemma filter_nonnull_twice (d : dict) :
  filter (fun kv => negb (Py.is_none (snd kv)))
    (filter (fun kv => negb (Py.is_none (snd kv))) d)
  = filter (fun kv => negb (Py.is_none (snd kv))) d.
Proof.
  induction d as [|[k v] d IH]; simpl; [reflexivity|].
  destruct (negb (Py.is_none v)) eqn:E; simpl; [rewrite E|]; congruence.
Qed.

Lemma convert_boolean_value_none (v : pyval) :
  Py.is_none (_convert_boolean_value v) = Py.is_none v.
Proof. now destruct v. Qed.

(** X1: on a mapping [_remove_null_values] leaves no key bound to [None],
    keeps every binding whose value is not [None], invents no binding, and
    applying it again changes nothing; a value that is not a mapping
    ([None] included) is returned as it is. *)
Theorem remove_null_values_sanitizes :
  (forall d, exists d',
      _remove_null_values (PDict d) = PDict d'
      /\ (forall k, Py.dict_get k d' <> Some PNone)
      /\ (forall k v, Py.dict_get k d = Some v -> v <> PNone ->
                      Py.dict_get k d' = Some v)
      /\ (forall k v, Py.dict_get k d' = Some v -> In (k, v) d)
      /\ _remove_null_values (PDict d') = PDict d')
  /\ (forall v, Py.isinstance_dict v = false -> _remove_null_values v = v).
Proof.
  split.
  - intros d. eexists. split; [reflexivity|].
    split; [|split; [|split]].
    + intros k H. apply dict_get_filter_some in H. destruct H; discriminate.
    + intros k v H Hv. apply dict_get_filter_kept; auto.
      destruct v; auto. congruence.
    + intros k v H. now apply dict_get_filter_some in H.
    + simpl. now rewrite filter_nonnull_twice.
  - intros v Hv. destruct v; try reflexivity. discriminate.
Qed.

Lemma remove_null_values_sanitizes_witness :
  Py.dict_get "b"
    (filter (fun kv => negb (Py.is_none (snd kv)))
       [("a", PNone); ("b", PBool true)])
  = Some (PBool true)
  /\ _remove_null_values (PStr "raw body") = PStr "raw body".
Proof.
  destruct remove_null_values_sanitizes as [Hmap Hother].
  destruct (Hmap [("a", PNone); ("b", PBool true)])
    as (d' & Heq & _ & Hkept & _).
  inversion Heq; subst d'.
  split.
  - apply (Hkept "b" (PBool true)); [reflexivity | discriminate].
  - apply Hother. reflexivity.
Defined.

(** X2: on a mapping [_convert_boolean_values] keeps the keys and their
    order, turns [True] into [1] and [False] into [0], leaves every other
    value alone, and so leaves no boolean behind. *)
Theorem convert_boolean_values_coerces (d : dict) :
  exists d',
    _convert_boolean_values (PDict d) = PDict d'
    /\ map fst d' = map fst d
    /\ (forall k, Py.dict_get k d'
                  = option_map _convert_boolean_value (Py.dict_get k d))
    /\ (forall k b, Py.dict_get k d = Some (PBool b) ->
                    Py.dict_get k d' = Some (PInt (if b then 1 else 0)))
    /\ (forall k b, Py.dict_get k d' <> Some (PBool b)).
Proof.
  eexists. split; [reflexivity|].
  split; [|split; [|split]].
  - rewrite map_map. simpl. reflexivity.
  - intros k. apply dict_get_convert.
  - intros k b H. now rewrite dict_get_convert, H.
  - intros k b. rewrite dict_get_convert.
    destruct (Py.dict_get k d) as [[]|]; simpl; discriminate.
Qed.

Lemma convert_boolean_values_coerces_witness :
  Py.dict_get "verbose"
    (map (fun kv => (fst kv, _convert_boolean_value (snd kv)))
       [("verbose", PBool true); ("limit", PInt 5)])
  = Some (PInt 1).
Proof.
  destruct (convert_boolean_values_coerces
              [("verbose", PBool true); ("limit", PInt 5)])
    as (d' & Heq & _ & _ & Hbool & _).
  inversion Heq; subst d'.
  apply (Hbool "verbose" true). reflexivity.
Defined.

(** X3: dropping [None] values and coercing booleans can be done in either
    order, on every value; on [{"a": None, "b": True, "c": False}] the two
    together give [{"b": 1, "c": 0}]. *)
Theorem sanitize_and_coerce_commute :
  (forall v, _remove_null_values (_convert_boolean_values v)
             = _convert_boolean_values (_remove_null_values v))
  /\ _remove_null_values
       (_convert_boolean_values
          (PDict [("a", PNone); ("b", PBool true); ("c", PBool false)]))
     = PDict [("b", PInt 1); ("c", PInt 0)].
Proof.
  split; [|reflexivity].
  intros v. destruct v; try reflexivity. simpl. f_equal.
  induction d as [|[k x] d IH]; simpl; [reflexivity|].
  rewrite convert_boolean_value_none.
  destruct (Py.is_none x); simpl; now rewrite IH.
Qed.

(** ** The service-binding registry *)

Section Registry.

Variable json_loads : string -> result pyval.

(** Reading the registry touches nothing but the log. *)
Lemma load_from_vcap_services_world (name : string) (w : world)
    (r : result pyval) (w' : world) :
  load_from_vcap_services json_loads name w = (r, w') -> w' = after_getenv w.
Proof.
  unfold load_from_vcap_services, os_getenv, after_getenv. run_monad.
  destruct (lookup_env "VCAP_SERVICES" (environ w)) as [doc|]; cbn;
    [|intros H; now inversion H].
  destruct (json_loads doc) as [services|e]; cbn; [|intros H; now inversion H].
  destruct (Py.contains name services) as [[|]|e]; cbn;
    try (intros H; now inversion H).
  destruct (Py.getitem services name) as [bindings|e]; cbn;
    [|intros H; now inversion H].
  destruct (Py.getitem0 bindings) as [first|e]; cbn;
    intros H; now inversion H.
Qed.

(** X4: [load_from_vcap_services] answers [None], without raising, when
    [VCAP_SERVICES] is not set (the decoder is not even called) and when the
    decoded document is a mapping that does not have the service name; all
    it does to the world is read the environment once. *)
Theorem load_from_vcap_services_absent (name : string) (w : world) :
  lookup_env "VCAP_SERVICES" (environ w) = None
  \/ (exists doc services,
         lookup_env "VCAP_SERVICES" (environ w) = Some doc
         /\ json_loads doc = Ok (PDict services)
         /\ Py.dict_get name services = None) ->
  load_from_vcap_services json_loads name w = (Ok PNone, after_getenv w).
Proof.
  unfold load_from_vcap_services, os_getenv, after_getenv. run_monad.
  intros [Henv | (doc & services & Henv & Hdoc & Hname)]; rewrite Henv; cbn.
  - reflexivity.
  - rewrite Hdoc. cbn. unfold Py.dict_mem. now rewrite Hname.
Qed.

(** The constructor called with no username and no api key, bindings on:
    it creates the jar and goes to the registry. *)
Lemma init_goes_to_registry (name : string) (u pwd : pyval) (w : world) :
  __init__ json_loads name u PNone pwd true PNone w
  = (let w1 := mkWorld (environ w) (jars w ++ [[]]) (responses w) (log w) in
     let c := mkClient u (Some (length (jars w))) PNone PNone
                (without_placeholder "YOUR SERVICE PASSWORD" pwd) None in
     match load_from_vcap_services json_loads name w1 with
     | (Ok creds, w2) =>
         bind (if negb (Py.is_none creds) && Py.isinstance_dict creds then
                 u' <- lift (Py.getitem creds "url") ;;
                 has_username <- lift (Py.contains "username" creds) ;;
                 usr <- (if has_username then lift (Py.getitem creds "username")
                         else ret (username c)) ;;
                 has_password <- lift (Py.contains "password" creds) ;;
                 pwd' <- (if has_password then lift (Py.getitem creds "password")
                          else ret (password c)) ;;
                 has_apikey <- lift (Py.contains "apikey" creds) ;;
                 key <- (if has_apikey then lift (Py.getitem creds "apikey")
                         else ret (api_key c)) ;;
                 ret (mkClient u' (jar c) key usr pwd' (Some creds))
               else ret (mkClient u (jar c) PNone PNone (password c) (Some creds)))
           final_validation w2
     | (Raise e, w2) => (Raise e, w2)
     end).
Proof.
  unfold __init__, resolve_credentials, take_explicit_credentials,
    take_service_binding, set_username_and_password, new_CookieJar,
    without_placeholder.
  unfold bind at 1 2 3. unfold ret at 1. cbn -[load_from_vcap_services bind].
  unfold bind at 1.
  destruct (load_from_vcap_services json_loads name _) as [[creds|e] w2];
    reflexivity.
Qed.

Lemma load_from_vcap_services_found (name : string) (w : world) (doc : string)
    (services : dict) (bindings : pyval) :
  lookup_env "VCAP_SERVICES" (environ w) = Some doc ->
  json_loads doc = Ok (PDict services) ->
  Py.dict_get name services = Some bindings ->
  load_from_vcap_services json_loads name w
  = (match Py.getitem0 bindings with
     | Ok first => Py.getitem first "credentials"
     | Raise e => Raise e
     end, after_getenv w).
Proof.
  intros Henv Hdoc Hname.
  unfold load_from_vcap_services, os_getenv, after_getenv. run_monad.
  rewrite Henv. cbn. rewrite Hdoc. cbn. unfold Py.dict_mem.
  rewrite Hname. cbn.
  destruct (Py.getitem0 bindings); reflexivity.
Qed.

(** X5: a registry that names the service but is not shaped as expected
    makes the constructor fail with the lookup's own exception rather than
    the missing-credentials error: an empty list of bindings gives
    [IndexError], a first binding without ["credentials"] gives [KeyError],
    and a document the decoder rejects gives the decoder's exception. *)
Theorem malformed_registry_breaks_construction (name : string) (u pwd : pyval)
    (w : world) (doc : string) :
  lookup_env "VCAP_SERVICES" (environ w) = Some doc ->
  (forall e, json_loads doc = Raise e ->
     fst (__init__ json_loads name u PNone pwd true PNone w) = Raise e)
  /\ (forall services,
        json_loads doc = Ok (PDict services) ->
        Py.dict_get name services = Some (PList []) ->
        fst (__init__ json_loads name u PNone pwd true PNone w)
        = Raise IndexError)
  /\ (forall services entry rest,
        json_loads doc = Ok (PDict services) ->
        Py.dict_get name services = Some (PList (PDict entry :: rest)) ->
        Py.dict_get "credentials" entry = None ->
        fst (__init__ json_loads name u PNone pwd true PNone w)
        = Raise (KeyError (PStr "credentials"))).
Proof.
  intros Henv. rewrite init_goes_to_registry. cbv zeta.
  set (w1 := mkWorld (environ w) (jars w ++ [[]]) (responses w) (log w)).
  assert (Henv1 : lookup_env "VCAP_SERVICES" (environ w1) = Some doc)
    by exact Henv.
  split; [|split].
  - intros e Hdoc.
    unfold load_from_vcap_services, os_getenv. run_monad.
    rewrite Henv. cbn. now rewrite Hdoc.
  - intros services Hdoc Hname.
    rewrite (load_from_vcap_services_found name w1 doc services _
               Henv1 Hdoc Hname).
    reflexivity.
  - intros services entry rest Hdoc Hname Hcreds.
    rewrite (load_from_vcap_services_found name w1 doc services _
               Henv1 Hdoc Hname).
    cbn. now rewrite Hcreds.
Qed.

End Registry.

Section Bindings.

Variable json_loads : string -> result pyval.

Local Arguments load_from_vcap_services : simpl never.

Lemma registry_credentials (name : string) (w : world) (doc : string)
    (services entry : dict) (rest : list pyval) (creds : pyval) :
  lookup_env "VCAP_SERVICES" (environ w) = Some doc ->
  json_loads doc = Ok (PDict services) ->
  Py.dict_get name services = Some (PList (PDict entry :: rest)) ->
  Py.dict_get "credentials" entry = Some creds ->
  forall jars',
    load_from_vcap_services json_loads name
      (mkWorld (environ w) jars' (responses w) (log w))
    = (Ok creds,
       after_getenv (mkWorld (environ w) jars' (responses w) (log w))).
Proof.
  intros Henv Hdoc Hname Hcreds jars'.
  set (w1 := mkWorld (environ w) jars' (responses w) (log w)).
  assert (Henv1 : lookup_env "VCAP_SERVICES" (environ w1) = Some doc)
    by exact Henv.
  rewrite (load_from_vcap_services_found json_loads name w1 doc services _
             Henv1 Hdoc Hname).
  cbn. now rewrite Hcreds.
Qed.

(** X6: a binding whose credentials mapping has no ["url"] makes the
    constructor fail with [KeyError], whatever credentials it carries. *)
Theorem binding_without_url_rejected (name : string) (u pwd : pyval)
    (w : world) (doc : string) (services entry creds : dict)
    (rest : list pyval) :
  lookup_env "VCAP_SERVICES" (environ w) = Some doc ->
  json_loads doc = Ok (PDict services) ->
  Py.dict_get name services = Some (PList (PDict entry :: rest)) ->
  Py.dict_get "credentials" entry = Some (PDict creds) ->
  Py.dict_get "url" creds = None ->
  fst (__init__ json_loads name u PNone pwd true PNone w)
  = Raise (KeyError (PStr "url")).
Proof.
  intros Henv Hdoc Hname Hcreds Hurl.
  rewrite init_goes_to_registry. cbv zeta.
  rewrite (registry_credentials name w doc services entry rest _
             Henv Hdoc Hname Hcreds).
  unfold bind, lift. cbn. now rewrite Hurl.
Qed.

(** X7: credentials in the registry that are not a mapping ([null], a
    list, a string, a number) are ignored: with no explicit username and no
    api key the constructor then fails with the missing-credentials error. *)
Theorem non_mapping_credentials_ignored (name : string) (u pwd : pyval)
    (w : world) (doc : string) (services entry : dict) (rest : list pyval)
    (creds : pyval) :
  lookup_env "VCAP_SERVICES" (environ w) = Some doc ->
  json_loads doc = Ok (PDict services) ->
  Py.dict_get name services = Some (PList (PDict entry :: rest)) ->
  Py.dict_get "credentials" entry = Some creds ->
  Py.isinstance_dict creds = false ->
  fst (__init__ json_loads name u PNone pwd true PNone w)
  = Raise (WatsonException (PStr missing_credentials_message)).
Proof.
  intros Henv Hdoc Hname Hcreds Hshape.
  rewrite init_goes_to_registry. cbv zeta.
  rewrite (registry_credentials name w doc services entry rest _
             Henv Hdoc Hname Hcreds).
  rewrite Hshape, andb_false_r. reflexivity.
Qed.

(** X8: a binding supplies only the keys it has.  With a password given
    explicitly but no username, a binding that holds a ["url"] and a
    ["username"] and neither ["password"] nor ["apikey"] yields a client
    with the binding's URL and username and the explicit password. *)
Theorem binding_fills_only_its_keys (name : string) (u pwd : pyval)
    (w : world) (doc : string) (services entry creds : dict)
    (rest : list pyval) (burl busr : pyval) :
  lookup_env "VCAP_SERVICES" (environ w) = Some doc ->
  json_loads doc = Ok (PDict services) ->
  Py.dict_get name services = Some (PList (PDict entry :: rest)) ->
  Py.dict_get "credentials" entry = Some (PDict creds) ->
  Py.dict_get "url" creds = Some burl ->
  Py.dict_get "username" creds = Some busr ->
  Py.dict_get "password" creds = None ->
  Py.dict_get "apikey" creds = None ->
  busr <> PNone ->
  without_placeholder "YOUR SERVICE PASSWORD" pwd <> PNone ->
  exists self w',
    __init__ json_loads name u PNone pwd true PNone w = (Ok self, w')
    /\ url self = burl
    /\ username self = busr
    /\ password self = without_placeholder "YOUR SERVICE PASSWORD" pwd
    /\ api_key self = PNone.
Proof.
  intros Henv Hdoc Hname Hcreds Hurl Husr Hpwd Hkey Hset Hexplicit.
  rewrite init_goes_to_registry. cbv zeta.
  rewrite (registry_credentials name w doc services entry rest _
             Henv Hdoc Hname Hcreds).
  unfold bind, lift, ret. cbn. unfold Py.dict_mem.
  rewrite Hurl, Husr, Hpwd, Hkey. cbn.
  unfold final_validation. cbn.
  assert (Hn1 : Py.is_none busr = false) by (destruct busr; simpl; congruence).
  assert (Hn2 : Py.is_none (without_placeholder "YOUR SERVICE PASSWORD" pwd)
                = false).
  { destruct (without_placeholder "YOUR SERVICE PASSWORD" pwd);
      simpl; congruence. }
  rewrite Hn1, Hn2. cbn.
  do 2 eexists. split; [reflexivity|]. cbn. auto.
Qed.

Lemma take_explicit_credentials_jar (u usr pwd key : pyval) (w : world)
    (self : client) (w' : world) :
  take_explicit_credentials u usr pwd key w = (Ok self, w') ->
  jar self = Some (length (jars w))
  /\ w' = mkWorld (environ w) (jars w ++ [[]]) (responses w) (log w).
Proof.
  unfold take_explicit_credentials.
  destruct (negb (Py.is_none key)); cbn;
    [destruct (negb (Py.is_none usr) || negb (Py.is_none pwd)); cbn;
     [discriminate|]|];
    intros H; inversion H; subst; cbn; auto.
Qed.

Lemma take_service_binding_jar (self : client) (name : string)
    (use_vcap : bool) (w : world) (self' : client) (w' : world) :
  take_service_binding json_loads self name use_vcap w = (Ok self', w') ->
  jar self' = jar self
  /\ environ w' = environ w /\ jars w' = jars w /\ responses w' = responses w.
Proof.
  unfold take_service_binding.
  destruct (use_vcap && negb (Py.truthy (username self))
            && negb (Py.truthy (api_key self))); cbn.
  - unfold bind at 1.
    destruct (load_from_vcap_services json_loads name w) as [[creds|e] w1] eqn:L;
      [|discriminate].
    apply load_from_vcap_services_world in L. subst w1.
    destruct creds; cbn;
      try (intros H; inversion H; subst; cbn; now auto).
    unfold bind, lift, ret; cbn.
    repeat (match goal with
            | |- context [match Py.dict_get ?k d with _ => _ end] =>
                destruct (Py.dict_get k d)
            | |- context [if Py.dict_mem ?k d then _ else _] =>
                destruct (Py.dict_mem k d)
            end; cbn);
      try discriminate;
      intros H; inversion H; subst; cbn; now auto.
  - intros H; inversion H; subst. auto.
Qed.

(** X9: a client the constructor returns always has credentials that are
    not [None] (a username and a password, or an api key) and a cookie jar
    of its own: exactly one jar, new and empty, was added to the world, and
    the environment and the response objects are as before. *)
Theorem constructed_client_is_equipped (name : string) (u usr pwd : pyval)
    (use_vcap : bool) (key : pyval) (w : world) (self : client) (w' : world) :
  __init__ json_loads name u usr pwd use_vcap key w = (Ok self, w') ->
  ((username self <> PNone /\ password self <> PNone) \/ api_key self <> PNone)
  /\ jar self = Some (length (jars w))
  /\ jars w' = (jars w ++ [[]])%list
  /\ environ w' = environ w
  /\ responses w' = responses w.
Proof.
  unfold __init__, bind at 1.
  destruct (resolve_credentials json_loads name u usr pwd use_vcap key w)
    as [[c|e] w2] eqn:R; [|discriminate].
  unfold final_validation.
  destruct ((Py.is_none (username c) || Py.is_none (password c))
            && Py.is_none (api_key c)) eqn:V; cbn; [discriminate|].
  intros H; inversion H; subst c w2. clear H.
  split.
  - destruct (username self), (password self), (api_key self);
      simpl in V; try discriminate;
      try (left; split; discriminate); right; discriminate.
  - revert R. unfold resolve_credentials, bind.
    destruct (take_explicit_credentials u usr pwd key w) as [[c|e] w1] eqn:E;
      [|discriminate].
    apply take_explicit_credentials_jar in E. destruct E as [Hjar ->].
    intros B. apply take_service_binding_jar in B.
    destruct B as (-> & -> & -> & ->). cbn. auto.
Qed.

End Bindings.

(** X10: the credential setters never check what they leave behind.
    [set_api_key] with the placeholder ["YOUR API KEY"] on a client without
    a username or without a password succeeds, although the constructor's
    validation would reject the resulting state, and the requests that
    client prepares carry neither a basic-auth pair nor an [apikey]
    parameter. *)
Theorem setters_do_not_validate (self : client) (w : world) :
  username self = PNone \/ password self = PNone ->
  exists self' w',
    set_api_key self (PStr "YOUR API KEY") w = (Ok self', w')
    /\ api_key self' = PNone
    /\ fst (final_validation self' w')
       = Raise (WatsonException (PStr missing_credentials_message))
    /\ (forall method path accept_json headers params json' data kwargs sent,
           prepare_request self' method path accept_json headers params
             json' data kwargs = Ok sent ->
           sent_auth sent = None
           /\ sent_params sent = _remove_null_values params).
Proof.
  intros Hbasic. do 2 eexists. split; [reflexivity|]. cbn.
  split; [reflexivity|]. split.
  - unfold final_validation. cbn.
    destruct Hbasic as [-> | ->]; cbn; rewrite ?orb_true_r; reflexivity.
  - intros method path accept_json headers params json' data kwargs sent.
    unfold prepare_request. cbn.
    destruct (Py.add (url self) path); [|discriminate].
    assert (Hauth : Py.truthy (username self) && Py.truthy (password self)
                    = false).
    { destruct Hbasic as [-> | ->]; cbn; auto using andb_false_r. }
    rewrite Hauth. intros H; inversion H; subst. auto.
Qed.

Lemma binding_without_url_rejected_witness :
  fst (__init__
         (fun _ => Ok (PDict [("svc",
                               PList [PDict [("credentials",
                                              PDict [("username", PStr "u");
                                                     ("password", PStr "p")])]])]))
         "svc" (PStr "https://host.example/api") PNone PNone true PNone
         bound_world)
  = Raise (KeyError (PStr "url")).
Proof.
  apply (binding_without_url_rejected _ "svc" _ _ bound_world "registry"
           [("svc",
             PList [PDict [("credentials",
                            PDict [("username", PStr "u");
                                   ("password", PStr "p")])]])]
           [("credentials",
             PDict [("username", PStr "u"); ("password", PStr "p")])]
           [("username", PStr "u"); ("password", PStr "p")] []);
    reflexivity.
Defined.

(** ** Preparing a request *)

Lemma eq_str_true (v : pyval) (s : string) :
  Py.eq_str v s = true <-> v = PStr s.
Proof.
  destruct v; simpl; try (split; intros H; discriminate H).
  rewrite String.eqb_eq. split; congruence.
Qed.

Lemma add_to_non_string (a : pyval) (p : string) :
  (forall s, a <> PStr s) -> Py.add a (PStr p) = Raise TypeError.
Proof.
  intros Hns. destruct a as [| b | z | s | l | d]; try reflexivity.
  now destruct (Hns s).
Qed.

Lemma dict_set_keys (k : string) (v : pyval) (d : dict) :
  map fst (Py.dict_set k v d)
  = if Py.dict_mem k d then map fst d else (map fst d ++ [k])%list.
Proof.
  unfold Py.dict_mem.
  induction d as [|[k' v'] d IH]; simpl; [reflexivity|].
  destruct (k' =? k)%string eqn:E; simpl; [reflexivity|].
  rewrite IH. now destruct (Py.dict_get k d).
Qed.

Lemma dict_get_key_in (k : string) (d : dict) :
  Py.dict_get k d = None -> ~ In k (map fst d).
Proof.
  induction d as [|[k' v'] d IH]; simpl; [tauto|].
  destruct (k' =? k)%string eqn:E; [discriminate|].
  apply String.eqb_neq in E. intros H [Heq | Hin]; [congruence|].
  now apply IH.
Qed.

Lemma dict_set_unique (k : string) (v : pyval) (d : dict) :
  unique_keys d -> unique_keys (Py.dict_set k v d).
Proof.
  unfold unique_keys. intros Hu. rewrite dict_set_keys.
  unfold Py.dict_mem. destruct (Py.dict_get k d) eqn:E; [assumption|].
  apply dict_get_key_in in E.
  apply NoDup_app; [assumption | repeat constructor; simpl; tauto |].
  intros x Hx [<- | []]. contradiction.
Qed.

Lemma dict_update_unique (other d : dict) :
  unique_keys d -> unique_keys (Py.dict_update d other).
Proof.
  unfold Py.dict_update. revert d.
  induction other as [|[k v] other IH]; simpl; intros d Hu; [assumption|].
  apply IH. now apply dict_set_unique.
Qed.

Lemma dict_get_update (k : string) (other d : dict) :
  unique_keys other ->
  Py.dict_get k (Py.dict_update d other)
  = match Py.dict_get k other with
    | Some v => Some v
    | None => Py.dict_get k d
    end.
Proof.
  unfold Py.dict_update, unique_keys. revert d.
  induction other as [|[k' v'] other IH]; simpl; intros d Hu; [reflexivity|].
  inversion Hu as [|? ? Hnotin Hu']; subst.
  rewrite (IH _ Hu').
  destruct (k' =? k)%string eqn:E.
  - apply String.eqb_eq in E. subst k'.
    now rewrite (dict_get_not_key k other Hnotin), dict_get_set_same.
  - apply String.eqb_neq in E.
    destruct (Py.dict_get k other); [reflexivity|].
    apply dict_get_set_other. congruence.
Qed.

(** What a prepared request takes over unchanged. *)
Lemma prepare_request_fields (self : client) (method path : pyval)
    (accept_json : bool) (headers : option dict) (params json' data : pyval)
    (kwargs : dict) (sent : sent_request) :
  prepare_request self method path accept_json headers params json' data
    kwargs = Ok sent ->
  Py.add (url self) path = Ok (sent_url sent)
  /\ sent_method sent = method
  /\ sent_cookies sent = jar self
  /\ sent_auth sent = (if basic_active self
                       then Some (username self, password self) else None)
  /\ sent_json sent = _remove_null_values json'
  /\ sent_data sent = _remove_null_values data
  /\ sent_kwargs sent = kwargs.
Proof.
  unfold prepare_request, basic_active.
  destruct (Py.add (url self) path); [|discriminate].
  destruct (if negb (Py.is_none (api_key self)) then _ else _); [|discriminate].
  intros H; inversion H; subst; cbn. repeat split.
Qed.

Lemma prepare_request_headers (self : client) (method path : pyval)
    (accept_json : bool) (headers : option dict) (params json' data : pyval)
    (kwargs : dict) (sent : sent_request) :
  prepare_request self method path accept_json headers params json' data
    kwargs = Ok sent ->
  sent_headers sent
  = _remove_null_values
      (if accept_json then
         match headers with
         | Some (h :: hs) =>
             PDict (Py.dict_update [("accept", PStr "application/json")]
                      (h :: hs))
         | _ => PDict [("accept", PStr "application/json")]
         end
       else match headers with Some h => PDict h | None => PNone end).
Proof.
  unfold prepare_request.
  destruct (Py.add (url self) path); [|discriminate].
  destruct (if negb (Py.is_none (api_key self)) then _ else _); [|discriminate].
  intros H; inversion H; reflexivity.
Qed.

(** X11: with [accept_json], the headers sent are the caller's merged over
    [{"accept": "application/json"}] and then stripped of [None] values: a
    caller without an ["accept"] header gets the JSON one, a caller's own
    ["accept"] replaces it, and a caller's ["accept": None] removes the
    header altogether.  (The caller's mapping has no key twice.) *)
Theorem accept_header_merged (self : client) (method path : pyval)
    (headers : option dict) (params json' data : pyval) (kwargs : dict)
    (sent : sent_request) :
  prepare_request self method path true headers params json' data kwargs
  = Ok sent ->
  match headers with Some h => unique_keys h | None => True end ->
  exists sent_h,
    sent_headers sent = PDict sent_h
    /\ forall k,
         Py.dict_get k sent_h
         = match (match headers with
                  | Some h =>
                      match Py.dict_get k h with
                      | Some v => Some v
                      | None => Py.dict_get k [("accept", PStr "application/json")]
                      end
                  | None => Py.dict_get k [("accept", PStr "application/json")]
                  end) with
           | Some v => if Py.is_none v then None else Some v
           | None => None
           end.
Proof.
  intros H Hu. apply prepare_request_headers in H. rewrite H. clear H.
  assert (Hbase : unique_keys [("accept", PStr "application/json")]).
  { unfold unique_keys. simpl. repeat constructor. simpl. tauto. }
  destruct headers as [[|h hs]|].
  - eexists. split; [reflexivity|]. intros k.
    rewrite (dict_get_filter_unique k _ Hbase). reflexivity.
  - pose proof (dict_update_unique (h :: hs) _ Hbase) as Hmerged.
    eexists. split; [reflexivity|]. intros k.
    rewrite (dict_get_filter_unique k _ Hmerged).
    now rewrite (dict_get_update k (h :: hs) _ Hu).
  - eexists. split; [reflexivity|]. intros k.
    rewrite (dict_get_filter_unique k _ Hbase). reflexivity.
Qed.

(** X12: a client whose [api_key] is not [None] (an empty string
    included) puts it in the query parameters as ["apikey"], creating the
    mapping when the caller gave none and replacing an ["apikey"] the caller
    supplied; the caller's other parameters with a value are kept.  A
    client without an api key sends the caller's parameters, only stripped
    of [None] values. *)
Theorem api_key_injected (self : client) (method path : pyval)
    (accept_json : bool) (headers : option dict) (params json' data : pyval)
    (kwargs : dict) (sent : sent_request) :
  prepare_request self method path accept_json headers params json' data
    kwargs = Ok sent ->
  (api_key self = PNone -> sent_params sent = _remove_null_values params)
  /\ (api_key self <> PNone ->
      exists sent_p,
        sent_params sent = PDict sent_p
        /\ Py.dict_get "apikey" sent_p = Some (api_key self)
        /\ (params = PNone -> sent_p = [("apikey", api_key self)])
        /\ (forall d k v,
               params = PDict d -> k <> "apikey" ->
               Py.dict_get k d = Some v -> v <> PNone ->
               Py.dict_get k sent_p = Some v)).
Proof.
  unfold prepare_request.
  destruct (Py.add (url self) path); [|discriminate].
  split.
  - intros Hk. rewrite Hk in H. cbn in H. now inversion H.
  - intros Hk.
    assert (Hnn : Py.is_none (api_key self) = false)
      by (destruct (api_key self); simpl; congruence).
    rewrite Hnn in H. cbn in H.
    destruct params as [| b | z | s | l | d]; cbn in H; try discriminate;
      inversion H; subst; clear H; cbn [sent_params];
      eexists; (split; [reflexivity|]).
    + split; [reflexivity|]. split; [reflexivity|].
      intros d k v Hd. discriminate Hd.
    + split; [apply dict_get_set_same|]. split; [discriminate|].
      intros d0 k v Hd Hne Hget Hv. inversion Hd; subst d0.
      rewrite dict_get_set_other by assumption.
      apply dict_get_filter_kept; [assumption|].
      destruct v; simpl; congruence.
Qed.

(** ** Sending and classifying *)

Lemma keeps_ret {A} (a : A) : keeps_surroundings (ret a).
Proof. intros w r w' H; inversion H; auto. Qed.

Lemma keeps_raise {A} (e : exn) : keeps_surroundings (@raise A e).
Proof. intros w r w' H; inversion H; auto. Qed.

Lemma keeps_lift {A} (x : result A) : keeps_surroundings (lift x).
Proof. intros w r w' H; inversion H; auto. Qed.

Lemma keeps_bind {A B} (m : M A) (k : A -> M B) :
  keeps_surroundings m -> (forall a, keeps_surroundings (k a)) ->
  keeps_surroundings (bind m k).
Proof.
  intros Hm Hk w r w'. unfold bind.
  destruct (m w) as [[a|e] w1] eqn:E; intros H.
  - destruct (Hm _ _ _ E) as (H1 & H2 & H3).
    destruct (Hk a _ _ _ H) as (K1 & K2 & K3).
    repeat split; congruence.
  - inversion H; subst. exact (Hm _ _ _ E).
Qed.

Lemma keeps_set_status_code (r : nat) (code : Z) :
  keeps_surroundings (set_status_code r code).
Proof.
  intros w x w'. unfold set_status_code.
  destruct (nth_error (responses w) r); intros H; inversion H; auto.
Qed.

Lemma keeps_classify_response (accept_json : bool) (r : nat) (resp : response) :
  keeps_surroundings (classify_response accept_json r resp).
Proof.
  unfold classify_response.
  destruct ((200 <=? status_code resp) && (status_code resp <=? 299)).
  - destruct accept_json; [|apply keeps_ret].
    apply keeps_bind; [apply keeps_lift|]. intros response_json.
    apply keeps_bind; [apply keeps_lift|]. intros has_status.
    apply keeps_bind.
    { destruct has_status; [|apply keeps_ret].
      apply keeps_bind; [apply keeps_lift|]. intros st. apply keeps_ret. }
    intros [|]; [|apply keeps_ret].
    apply keeps_bind; [apply keeps_set_status_code|]. intros _.
    apply keeps_bind; [apply keeps_lift|]. intros has_info.
    apply keeps_bind.
    { destruct has_info; [apply keeps_lift | apply keeps_ret]. }
    intros error_message.
    apply keeps_bind.
    { destruct (Py.eq_str error_message "invalid-api-key");
        [apply keeps_set_status_code | apply keeps_ret]. }
    intros _.
    apply keeps_bind; [apply keeps_lift|]. intros text. apply keeps_raise.
  - apply keeps_bind; [apply keeps_lift|]. intros t1.
    apply keeps_bind; [apply keeps_lift|]. intros t2.
    apply keeps_bind; [apply keeps_lift|]. intros t3. apply keeps_raise.
Qed.

Section Pipeline.

Variable requests_request :
  sent_request -> option (list cookie) -> result response * list cookie.

Lemma request_dispatched (self : client) (method path : pyval)
    (accept_json : bool) (headers : option dict) (params json' data : pyval)
    (kwargs : dict) (w : world) (sent : sent_request) (resp : response)
    (cookies' : list cookie) :
  prepare_request self method path accept_json headers params json' data
    kwargs = Ok sent ->
  requests_request sent (cookies_shown w sent) = (Ok resp, cookies') ->
  request requests_request self method path accept_json headers params
    json' data kwargs w
  = classify_response accept_json (length (responses w)) resp
      (after_dispatch w sent resp).
Proof.
  intros Hprep Hsend.
  unfold request, bind, lift. rewrite Hprep.
  unfold dispatch. fold (cookies_shown w sent). rewrite Hsend. reflexivity.
Qed.

(** X13: a call on a client whose base URL is not a string (a binding
    with ["url": null], say) raises [TypeError] when the path is joined to
    it; the transport is never called and the world is untouched. *)
Theorem request_needs_string_base (self : client) (method : pyval)
    (path : string) (accept_json : bool) (headers : option dict)
    (params json' data : pyval) (kwargs : dict) (w : world) :
  (forall base, url self <> PStr base) ->
  request requests_request self method (PStr path) accept_json headers params
    json' data kwargs w
  = (Raise TypeError, w).
Proof.
  intros Hbase. unfold request, bind, lift, prepare_request.
  now rewrite (add_to_non_string _ _ Hbase).
Qed.

(** X14: without [accept_json] a 2xx answer is handed back as the response
    object itself, exactly as the transport gave it; its body is not
    decoded, so it does not matter whether it is JSON at all. *)
Theorem raw_response_returned (self : client) (method path : pyval)
    (headers : option dict) (params json' data : pyval) (kwargs : dict)
    (w : world) (sent : sent_request) (resp : response)
    (cookies' : list cookie) :
  prepare_request self method path false headers params json' data kwargs
  = Ok sent ->
  requests_request sent (cookies_shown w sent) = (Ok resp, cookies') ->
  200 <= status_code resp <= 299 ->
  exists w',
    request requests_request self method path false headers params json'
      data kwargs w
    = (Ok (RawResponse (length (responses w))), w')
    /\ nth_error (responses w') (length (responses w)) = Some resp.
Proof.
  intros Hprep Hsend Hstatus.
  rewrite (request_dispatched _ _ _ _ _ _ _ _ _ _ _ _ _ Hprep Hsend).
  unfold classify_response.
  assert (Hin : (200 <=? status_code resp) && (status_code resp <=? 299)
                = true).
  { apply andb_true_iff. rewrite !Z.leb_le. lia. }
  rewrite Hin. eexists. split; [reflexivity|].
  unfold after_dispatch. cbn. apply nth_error_snoc.
Qed.

(** X15: with [accept_json] a 2xx answer whose body decodes to a mapping
    that has no ["status"] equal to ["ERROR"], or to a list that does not
    contain the string ["status"], is returned decoded, and the response
    object keeps its status code. *)
Theorem decoded_body_returned (self : client) (method path : pyval)
    (headers : option dict) (params json' data : pyval) (kwargs : dict)
    (w : world) (sent : sent_request) (resp : response)
    (cookies' : list cookie) (body : pyval) :
  prepare_request self method path true headers params json' data kwargs
  = Ok sent ->
  requests_request sent (cookies_shown w sent) = (Ok resp, cookies') ->
  200 <= status_code resp <= 299 ->
  json resp = Ok body ->
  (exists d, body = PDict d /\ Py.dict_get "status" d <> Some (PStr "ERROR"))
  \/ (exists l, body = PList l /\ ~ In (PStr "status") l) ->
  exists w',
    request requests_request self method path true headers params json'
      data kwargs w
    = (Ok (Decoded body), w')
    /\ nth_error (responses w') (length (responses w)) = Some resp.
Proof.
  intros Hprep Hsend Hstatus Hjson Hbody.
  rewrite (request_dispatched _ _ _ _ _ _ _ _ _ _ _ _ _ Hprep Hsend).
  unfold classify_response.
  assert (Hin : (200 <=? status_code resp) && (status_code resp <=? 299)
                = true).
  { apply andb_true_iff. rewrite !Z.leb_le. lia. }
  rewrite Hin, Hjson. unfold bind, lift, ret.
  assert (Hstored : nth_error (responses (after_dispatch w sent resp))
                      (length (responses w)) = Some resp)
    by (unfold after_dispatch; cbn; apply nth_error_snoc).
  destruct Hbody as [(d & -> & Hd) | (l & -> & Hl)]; cbn.
  - unfold Py.dict_mem.
    destruct (Py.dict_get "status" d) as [st|] eqn:E; cbn.
    + destruct (Py.eq_str st "ERROR") eqn:Q.
      * apply eq_str_true in Q. congruence.
      * eexists. split; [reflexivity | exact Hstored].
    + eexists. split; [reflexivity | exact Hstored].
  - assert (Hno : existsb (fun x => Py.eq_str x "status") l = false).
    { apply not_true_is_false. intros Hex. apply existsb_exists in Hex.
      destruct Hex as (x & Hin' & Hx). apply eq_str_true in Hx. congruence. }
    rewrite Hno. eexists. split; [reflexivity | exact Hstored].
Qed.

(** X16: with [accept_json] a 2xx answer whose body decodes to [null], a
    boolean or a number is not returned: the test for ["status"] raises
    [TypeError]. *)
Theorem scalar_body_raises (self : client) (method path : pyval)
    (headers : option dict) (params json' data : pyval) (kwargs : dict)
    (w : world) (sent : sent_request) (resp : response)
    (cookies' : list cookie) (body : pyval) :
  prepare_request self method path true headers params json' data kwargs
  = Ok sent ->
  requests_request sent (cookies_shown w sent) = (Ok resp, cookies') ->
  200 <= status_code resp <= 299 ->
  json resp = Ok body ->
  body = PNone \/ (exists b, body = PBool b) \/ (exists z, body = PInt z) ->
  fst (request requests_request self method path true headers params json'
         data kwargs w)
  = Raise TypeError.
Proof.
  intros Hprep Hsend Hstatus Hjson Hbody.
  rewrite (request_dispatched _ _ _ _ _ _ _ _ _ _ _ _ _ Hprep Hsend).
  unfold classify_response.
  assert (Hin : (200 <=? status_code resp) && (status_code resp <=? 299)
                = true).
  { apply andb_true_iff. rewrite !Z.leb_le. lia. }
  rewrite Hin, Hjson. unfold bind, lift.
  destruct Hbody as [-> | [(b & ->) | (z & ->)]]; reflexivity.
Qed.

(** X17: with [accept_json] a 2xx answer whose body cannot be decoded makes
    the call raise the decoder's own exception, not a [WatsonException]. *)
Theorem undecodable_success_raises (self : client) (method path : pyval)
    (headers : option dict) (params json' data : pyval) (kwargs : dict)
    (w : world) (sent : sent_request) (resp : response)
    (cookies' : list cookie) (e : exn) :
  prepare_request self method path true headers params json' data kwargs
  = Ok sent ->
  requests_request sent (cookies_shown w sent) = (Ok resp, cookies') ->
  200 <= status_code resp <= 299 ->
  json resp = Raise e ->
  fst (request requests_request self method path true headers params json'
         data kwargs w)
  = Raise e.
Proof.
  intros Hprep Hsend Hstatus Hjson.
  rewrite (request_dispatched _ _ _ _ _ _ _ _ _ _ _ _ _ Hprep Hsend).
  unfold classify_response.
  assert (Hin : (200 <=? status_code resp) && (status_code resp <=? 299)
                = true).
  { apply andb_true_iff. rewrite !Z.leb_le. lia. }
  rewrite Hin, Hjson. reflexivity.
Qed.

(** X19: when the transport itself fails, its exception comes out of
    [request] unchanged; no response object is created and the attempt is
    the one new entry of the log. *)
Theorem transport_failure_propagates (self : client) (method path : pyval)
    (accept_json : bool) (headers : option dict) (params json' data : pyval)
    (kwargs : dict) (w : world) (sent : sent_request) (e : exn)
    (cookies' : list cookie) :
  prepare_request self method path accept_json headers params json' data
    kwargs = Ok sent ->
  requests_request sent (cookies_shown w sent) = (Raise e, cookies') ->
  let run := request requests_request self method path accept_json headers
               params json' data kwargs w in
  fst run = Raise e
  /\ responses (snd run) = responses w
  /\ log (snd run) = EvHttp sent :: log w.
Proof.
  intros Hprep Hsend. cbv zeta.
  unfold request, bind, lift. rewrite Hprep.
  unfold dispatch. fold (cookies_shown w sent). rewrite Hsend. cbn. auto.
Qed.

End Pipeline.

(** ** The routers, further *)









Lemma image_params_base (params : pyval) :
  params = PNone \/ (exists d, params = PDict d) ->
  exists d0,
    Py.setitem (if Py.is_none params then PDict [] else params)
      "outputMode" (PStr "json")
    = Ok (PDict (Py.dict_set "outputMode" (PStr "json") d0))
    /\ d0 = match params with PDict d => d | _ => [] end.
Proof.
  intros [-> | [d ->]]; eexists; split; reflexivity.
Qed.





Section RoutedRequests.

Variable requests_request :
  sent_request -> option (list cookie) -> result response * list cookie.

Lemma request_logs_once (self : client) (method path : pyval)
    (accept_json : bool) (headers : option dict) (params json' data : pyval)
    (kwargs : dict) (w : world) (sent : sent_request) :
  prepare_request self method path accept_json headers params json' data
    kwargs = Ok sent ->
  log (snd (request requests_request self method path accept_json headers
              params json' data kwargs w))
  = EvHttp sent :: log w.
Proof.
  intros Hprep. unfold request, bind, lift. rewrite Hprep.
  unfold dispatch.
  destruct (requests_request sent _) as [[resp|e] cookies']; [|reflexivity].
  cbn -[classify_response].
  match goal with
  | |- context [classify_response ?a ?r ?x ?w1] =>
      destruct (classify_response a r x w1) as [res w2] eqn:C
  end.
  apply keeps_classify_response in C. destruct C as (_ & _ & Hlog).
  cbn. now rewrite Hlog.
Qed.

(** X24: when a router has nothing to route (no truthy [url], [html] or
    [text] and no override path; no image file and no truthy image URL), the
    call raises [WatsonInvalidArgument] without contacting the transport:
    the world is exactly as before. *)
Theorem routers_reject_before_sending (self : client)
    (method_name url' html text image_url params method : pyval) (w : world) :
  params = PNone \/ (exists d, params = PDict d) ->
  (Py.truthy url' = false -> Py.truthy html = false ->
   Py.truthy text = false ->
     _alchemy_html_request requests_request self method_name url' html text
       params method PNone w
     = (Raise (WatsonInvalidArgument
                 (PStr "url, html or text must be specified")), w))
  /\ (Py.truthy image_url = false ->
        snd (_alchemy_image_request requests_request self method_name None
               image_url params) w
        = (Raise (WatsonInvalidArgument
                    (PStr "image_file or image_url must be specified")), w)).
Proof.
  intros Hparams. split.
  - intros Hu Hh Ht. unfold _alchemy_html_request, bind, lift.
    destruct (alchemy_html_call_params method_name url' html text params
                method Hparams) as (d & _ & ->).
    now rewrite Hu, Hh, Ht.
  - intros Hu.
    destruct (image_params_base params Hparams) as (d0 & Hset & _).
    unfold _alchemy_image_request, alchemy_image_call.
    rewrite Hset. cbn. rewrite Hu. reflexivity.
Qed.

(** X25: a text analysis call on a client with a string base URL sends
    exactly one request: to the base URL followed by ["/text/Text" + suffix],
    with the caller's method, the form content type next to the JSON accept
    header, [outputMode=json] among the parameters, and the form body holding
    the text alone (the empty [html] field is dropped). *)
Theorem text_request_sent (self : client) (base suffix : string)
    (url' text params method : pyval) (w : world) :
  url self = PStr base ->
  params = PNone \/ (exists d, params = PDict d) ->
  Py.truthy url' = false ->
  Py.truthy text = true ->
  exists sent sent_p,
    log (snd (_alchemy_html_request requests_request self (PStr suffix) url'
                PNone text params method PNone w))
    = EvHttp sent :: log w
    /\ sent_url sent = PStr (base ++ "/text/Text" ++ suffix)
    /\ sent_method sent = method
    /\ sent_headers sent
       = PDict [("accept", PStr "application/json");
                ("content-type", PStr "application/x-www-form-urlencoded")]
    /\ sent_data sent = PDict [("text", text)]
    /\ sent_json sent = PNone
    /\ sent_params sent = PDict sent_p
    /\ Py.dict_get "outputMode" sent_p = Some (PStr "json").
Proof.
  intros Hbase Hparams Hu Ht.
  unfold _alchemy_html_request.
  destruct (alchemy_html_call_params (PStr suffix) url' PNone text params
              method Hparams) as (d & Hmode & ->).
  rewrite Hu, Ht. cbn -[request].
  assert (Hnn : Py.is_none text = false) by (destruct text; auto; discriminate).
  assert (Hprep : exists sent sent_p,
    prepare_request self method (PStr ("/text/Text" ++ suffix)) true
      (Some [("content-type", PStr "application/x-www-form-urlencoded")])
      (PDict d) PNone (PDict [("html", PNone); ("text", text)]) [] = Ok sent
    /\ sent_url sent = PStr (base ++ "/text/Text" ++ suffix)
    /\ sent_method sent = method
    /\ sent_headers sent
       = PDict [("accept", PStr "application/json");
                ("content-type", PStr "application/x-www-form-urlencoded")]
    /\ sent_data sent = PDict [("text", text)]
    /\ sent_json sent = PNone
    /\ sent_params sent = PDict sent_p
    /\ Py.dict_get "outputMode" sent_p = Some (PStr "json")).
  { unfold prepare_request. rewrite Hbase. cbn. rewrite Hnn. cbn.
    assert (Hkept : Py.dict_get "outputMode"
                      (filter (fun kv => negb (Py.is_none (snd kv))) d)
                    = Some (PStr "json"))
      by (now apply dict_get_filter_kept).
    destruct (Py.is_none (api_key self)); cbn;
      do 2 eexists; (split; [reflexivity|]); cbn;
      repeat (split; [reflexivity|]); [exact Hkept|].
    now rewrite dict_get_set_other by discriminate. }
  destruct Hprep as (sent & sent_p & Hprep & Hfacts).
  exists sent, sent_p. split; [|exact Hfacts].
  now apply request_logs_once.
Qed.

(** X26: an image upload on a client with a string base URL sends exactly
    one [POST] to the base URL followed by ["/image/Image" + suffix], whose
    body is the file's contents and whose only header is the JSON accept
    header. *)
Theorem image_request_sent (self : client) (base suffix : string)
    (f : file_obj) (image_url params : pyval) (w : world) :
  url self = PStr base ->
  params = PNone \/ (exists d, params = PDict d) ->
  exists sent,
    log (snd (snd (_alchemy_image_request requests_request self (PStr suffix)
                     (Some f) image_url params) w))
    = EvHttp sent :: log w
    /\ sent_url sent = PStr (base ++ "/image/Image" ++ suffix)
    /\ sent_method sent = PStr "POST"
    /\ sent_headers sent = PDict [("accept", PStr "application/json")]
    /\ sent_data sent = PStr (fst (file_read f)).
Proof.
  intros Hbase Hparams.
  destruct (image_params_base params Hparams) as (d0 & Hset & _).
  unfold _alchemy_image_request, alchemy_image_call.
  rewrite Hset. cbn -[request file_read].
  destruct (file_read f) as [contents f'] eqn:R.
  cbn -[request].
  match goal with
  | |- context [request _ self ?m ?p true ?h ?ps PNone ?dt []] =>
      assert (Hprep : exists sent,
        prepare_request self m p true h ps PNone dt [] = Ok sent
        /\ sent_url sent = PStr (base ++ "/image/Image" ++ suffix)
        /\ sent_method sent = PStr "POST"
        /\ sent_headers sent = PDict [("accept", PStr "application/json")]
        /\ sent_data sent = PStr contents)
  end.
  { unfold prepare_request. rewrite Hbase. cbn.
    destruct (Py.is_none (api_key self)); cbn;
      eexists; (split; [reflexivity|]); cbn; repeat split. }
  destruct Hprep as (sent & Hprep & Hfacts).
  exists sent. split; [|exact Hfacts].
  now apply request_logs_once.
Qed.

End RoutedRequests.

(** ** Concrete runs, further *)

Lemma load_from_vcap_services_absent_witness :
  load_from_vcap_services no_decoder "svc" empty_world
  = (Ok PNone, after_getenv empty_world).
Proof.
  apply load_from_vcap_services_absent. left. reflexivity.
Defined.

Lemma malformed_registry_breaks_construction_witness :
  fst (__init__ (fun _ => Ok (PDict [("svc", PList [])])) "svc"
         (PStr "https://host.example/api") PNone PNone true PNone bound_world)
  = Raise IndexError.
Proof.
  apply (proj1 (proj2 (malformed_registry_breaks_construction
                         (fun _ => Ok (PDict [("svc", PList [])])) "svc"
                         (PStr "https://host.example/api") PNone bound_world
                         "registry" eq_refl))
           [("svc", PList [])]);
    reflexivity.
Defined.

Lemma non_mapping_credentials_ignored_witness :
  fst (__init__ (fun _ => Ok (registry_with (PStr "user:secret"))) "svc"
         (PStr "https://host.example/api") PNone PNone true PNone bound_world)
  = Raise (WatsonException (PStr missing_credentials_message)).
Proof.
  apply (non_mapping_credentials_ignored
           (fun _ => Ok (registry_with (PStr "user:secret"))) "svc"
           (PStr "https://host.example/api") PNone bound_world "registry"
           [("svc", PList [PDict [("credentials", PStr "user:secret")]])]
           [("credentials", PStr "user:secret")] [] (PStr "user:secret"));
    reflexivity.
Defined.

Lemma binding_fills_only_its_keys_witness :
  exists self w',
    __init__
      (fun _ => Ok (registry_with
                      (PDict [("url", PStr "https://bound.example/api");
                              ("username", PStr "bound-user")])))
      "svc" (PStr "https://host.example/api") PNone (PStr "explicit") true
      PNone bound_world = (Ok self, w')
    /\ url self = PStr "https://bound.example/api"
    /\ username self = PStr "bound-user"
    /\ password self
       = without_placeholder "YOUR SERVICE PASSWORD" (PStr "explicit")
    /\ api_key self = PNone.
Proof.
  apply (binding_fills_only_its_keys _ "svc" (PStr "https://host.example/api")
           (PStr "explicit") bound_world "registry"
           [("svc",
             PList [PDict [("credentials",
                            PDict [("url", PStr "https://bound.example/api");
                                   ("username", PStr "bound-user")])]])]
           [("credentials",
             PDict [("url", PStr "https://bound.example/api");
                    ("username", PStr "bound-user")])]
           [("url", PStr "https://bound.example/api");
            ("username", PStr "bound-user")]
           [] (PStr "https://bound.example/api") (PStr "bound-user"));
    try reflexivity; discriminate.
Defined.

Lemma constructed_client_is_equipped_witness :
  ((username keyed_client <> PNone /\ password keyed_client <> PNone)
   \/ api_key keyed_client <> PNone)
  /\ jar keyed_client = Some (length (jars empty_world))
  /\ jars one_jar_world = (jars empty_world ++ [[]])%list
  /\ environ one_jar_world = environ empty_world
  /\ responses one_jar_world = responses empty_world.
Proof.
  apply (constructed_client_is_equipped no_decoder "svc"
           (PStr "https://host.example/api") PNone PNone false (PStr "k")
           empty_world keyed_client one_jar_world).
  reflexivity.
Defined.

Lemma setters_do_not_validate_witness :
  exists self' w',
    set_api_key keyed_client (PStr "YOUR API KEY") one_jar_world = (Ok self', w')
    /\ api_key self' = PNone
    /\ fst (final_validation self' w')
       = Raise (WatsonException (PStr missing_credentials_message)).
Proof.
  destruct (setters_do_not_validate keyed_client one_jar_world
              (or_introl eq_refl))
    as (self' & w' & Hrun & Hkey & Hinvalid & _).
  exists self', w'. auto.
Defined.

Lemma accept_header_merged_witness :
  exists sent_h,
    PDict [("accept", PStr "text/plain"); ("x-debug", PStr "1")] = PDict sent_h
    /\ Py.dict_get "accept" sent_h = Some (PStr "text/plain").
Proof.
  destruct (accept_header_merged keyed_client (PStr "GET") (PStr "/v1/ping")
              (Some [("accept", PStr "text/plain"); ("x-debug", PStr "1");
                     ("x-trace", PNone)])
              PNone PNone PNone []
              (mkSent (PStr "GET") (PStr "https://host.example/api/v1/ping")
                 (Some 0%nat) None
                 (PDict [("accept", PStr "text/plain"); ("x-debug", PStr "1")])
                 (PDict [("apikey", PStr "k")]) PNone PNone [])
              eq_refl)
    as (sent_h & Heq & Hget).
  - unfold unique_keys. cbn. repeat constructor; cbn; intuition discriminate.
  - exists sent_h. split; [exact Heq|]. rewrite (Hget "accept"). reflexivity.
Defined.

Lemma api_key_injected_witness :
  exists sent_p,
    sent_params
      (mkSent (PStr "GET") (PStr "https://host.example/api/v1/ping")
         (Some 0%nat) None PNone
         (PDict [("apikey", PStr "k"); ("q", PStr "cats")]) PNone PNone [])
    = PDict sent_p
    /\ Py.dict_get "apikey" sent_p = Some (PStr "k")
    /\ Py.dict_get "q" sent_p = Some (PStr "cats").
Proof.
  destruct (proj2 (api_key_injected keyed_client (PStr "GET") (PStr "/v1/ping")
                     false None
                     (PDict [("apikey", PStr "mine"); ("q", PStr "cats")])
                     PNone PNone []
                     (mkSent (PStr "GET")
                        (PStr "https://host.example/api/v1/ping")
                        (Some 0%nat) None PNone
                        (PDict [("apikey", PStr "k"); ("q", PStr "cats")])
                        PNone PNone [])
                     eq_refl))
    as (sent_p & Heq & Hkey & _ & Hkept).
  - discriminate.
  - exists sent_p. split; [exact Heq|]. split; [exact Hkey|].
    apply (Hkept [("apikey", PStr "mine"); ("q", PStr "cats")] "q"
             (PStr "cats"));
      try reflexivity; discriminate.
Defined.

Lemma request_needs_string_base_witness :
  request (answer_with not_found_answer)
    (mkClient PNone (Some 0%nat) (PStr "k") PNone PNone None)
    (PStr "GET") (PStr "/v1/ping") true None PNone PNone PNone [] one_jar_world
  = (Raise TypeError, one_jar_world).
Proof.
  apply request_needs_string_base. intros base. discriminate.
Defined.

Lemma raw_response_returned_witness :
  exists w',
    request (answer_with (ok_answer (PStr "pong"))) keyed_client (PStr "GET")
      (PStr "/v1/ping") false None PNone PNone PNone [] one_jar_world
    = (Ok (RawResponse 0), w')
    /\ nth_error (responses w') 0 = Some (ok_answer (PStr "pong")).
Proof.
  apply (raw_response_returned (answer_with (ok_answer (PStr "pong")))
           keyed_client (PStr "GET") (PStr "/v1/ping") None PNone PNone PNone
           [] one_jar_world ping_sent_raw (ok_answer (PStr "pong")) []);
    [reflexivity | reflexivity | cbn; lia].
Defined.

Lemma decoded_body_returned_witness :
  exists w',
    request (answer_with (ok_answer (PDict [("status", PStr "OK")])))
      keyed_client (PStr "GET") (PStr "/v1/ping") true None PNone PNone PNone
      [] one_jar_world
    = (Ok (Decoded (PDict [("status", PStr "OK")])), w')
    /\ nth_error (responses w') 0
       = Some (ok_answer (PDict [("status", PStr "OK")])).
Proof.
  apply (decoded_body_returned
           (answer_with (ok_answer (PDict [("status", PStr "OK")])))
           keyed_client (PStr "GET") (PStr "/v1/ping") None PNone PNone PNone
           [] one_jar_world ping_sent
           (ok_answer (PDict [("status", PStr "OK")])) []
           (PDict [("status", PStr "OK")]));
    [reflexivity | reflexivity | cbn; lia | reflexivity |].
  left. eexists. split; [reflexivity|]. cbn. discriminate.
Defined.

Lemma scalar_body_raises_witness :
  fst (request (answer_with (ok_answer PNone)) keyed_client (PStr "GET")
         (PStr "/v1/ping") true None PNone PNone PNone [] one_jar_world)
  = Raise TypeError.
Proof.
  apply (scalar_body_raises (answer_with (ok_answer PNone)) keyed_client
           (PStr "GET") (PStr "/v1/ping") None PNone PNone PNone []
           one_jar_world ping_sent (ok_answer PNone) [] PNone);
    [reflexivity | reflexivity | cbn; lia | reflexivity | left; reflexivity].
Defined.

Lemma undecodable_success_raises_witness :
  fst (request (answer_with (mkResponse 204 EmptyString (Raise ValueError)))
         keyed_client (PStr "GET") (PStr "/v1/ping") true None PNone PNone
         PNone [] one_jar_world)
  = Raise ValueError.
Proof.
  apply (undecodable_success_raises
           (answer_with (mkResponse 204 EmptyString (Raise ValueError)))
           keyed_client (PStr "GET") (PStr "/v1/ping") None PNone PNone PNone
           [] one_jar_world ping_sent
           (mkResponse 204 EmptyString (Raise ValueError)) [] ValueError);
    [reflexivity | reflexivity | cbn; lia | reflexivity].
Defined.

Lemma transport_failure_propagates_witness :
  fst (request unreachable keyed_client (PStr "GET") (PStr "/v1/ping") true
         None PNone PNone PNone [] one_jar_world)
  = Raise (TransportFailure "connection refused").
Proof.
  apply (transport_failure_propagates unreachable keyed_client (PStr "GET")
           (PStr "/v1/ping") true None PNone PNone PNone [] one_jar_world
           ping_sent (TransportFailure "connection refused") []);
    reflexivity.
Defined.

Lemma routers_reject_before_sending_witness :
  _alchemy_html_request unreachable keyed_client (PStr "Sentiment") PNone
    (PStr EmptyString) PNone PNone (PStr "POST") PNone one_jar_world
  = (Raise (WatsonInvalidArgument
              (PStr "url, html or text must be specified")), one_jar_world)
  /\ snd (_alchemy_image_request unreachable keyed_client (PStr "GetImage")
            None PNone PNone) one_jar_world
     = (Raise (WatsonInvalidArgument
                 (PStr "image_file or image_url must be specified")),
        one_jar_world).
Proof.
  destruct (routers_reject_before_sending unreachable keyed_client
              (PStr "Sentiment") PNone (PStr EmptyString) PNone PNone PNone
              (PStr "POST") one_jar_world (or_introl eq_refl))
    as [Hhtml _].
  destruct (routers_reject_before_sending unreachable keyed_client
              (PStr "GetImage") PNone PNone PNone PNone PNone
              (PStr "POST") one_jar_world (or_introl eq_refl))
    as [_ Himage].
  split; [apply Hhtml | apply Himage]; reflexivity.
Defined.

Lemma text_request_sent_witness :
  exists sent sent_p,
    log (snd (_alchemy_html_request (answer_with not_found_answer)
                keyed_client (PStr "Sentiment") PNone PNone (PStr "hello")
                PNone (PStr "POST") PNone one_jar_world))
    = EvHttp sent :: log one_jar_world
    /\ sent_url sent
       = PStr ("https://host.example/api" ++ "/text/Text" ++ "Sentiment")
    /\ sent_method sent = PStr "POST"
    /\ sent_headers sent
       = PDict [("accept", PStr "application/json");
                ("content-type", PStr "application/x-www-form-urlencoded")]
    /\ sent_data sent = PDict [("text", PStr "hello")]
    /\ sent_json sent = PNone
    /\ sent_params sent = PDict sent_p
    /\ Py.dict_get "outputMode" sent_p = Some (PStr "json").
Proof.
  apply (text_request_sent (answer_with not_found_answer) keyed_client
           "https://host.example/api" "Sentiment" PNone (PStr "hello") PNone
           (PStr "POST") one_jar_world);
    [reflexivity | left; reflexivity | reflexivity | reflexivity].
Defined.

Lemma image_request_sent_witness :
  exists sent,
    log (snd (snd (_alchemy_image_request (answer_with not_found_answer)
                     keyed_client (PStr "GetImage")
                     (Some (mkFile "PNG-bytes" 0)) PNone PNone)
                one_jar_world))
    = EvHttp sent :: log one_jar_world
    /\ sent_url sent
       = PStr ("https://host.example/api" ++ "/image/Image" ++ "GetImage")
    /\ sent_method sent = PStr "POST"
    /\ sent_headers sent = PDict [("accept", PStr "application/json")]
    /\ sent_data sent = PStr (fst (file_read (mkFile "PNG-bytes" 0))).
Proof.
  apply (image_request_sent (answer_with not_found_answer) keyed_client
           "https://host.example/api" "GetImage" (mkFile "PNG-bytes" 0) PNone
           PNone one_jar_world);
    [reflexivity | left; reflexivity].
Defined.
